(** * LLM_Storytelling: the story generator and its document pipeline

    A shallow embedding of [llm_story_generator/story_generator.py] and of
    [DatabaseManager.export_all_stories] from
    [llm_story_generator/db_manager.py].

    Python code that touches the disk, the SQLite database or the model
    server is written in a small state-and-exception monad [IO] over a
    [World]; what the external libraries and the operating system answer
    (directory listings, MD5, the langchain loaders, FAISS, the HTTP server)
    is read from an environment record [Env].  A Python [str] is modelled
    by the bytes of its UTF-8 encoding; a lone surrogate, which UTF-8
    refuses, stands as the three bytes ED A0..BF 80..BF that the encoding
    scheme gives its code point. *)

From Stdlib Require Import String Ascii List Bool Arith Lia.
From Stdlib Require Import Sorted Permutation ZArith.
From stdpp Require Import gmap strings list fin_maps pretty.

(** ** Python string primitives *)

Module Py.

Definition nl : string := String "010"%char EmptyString.
Definition dquote : string := String "034"%char EmptyString.

(** [s.endswith(suffix)] *)
Definition endswith (s suffix : string) : bool :=
  let n := String.length s in
  let k := String.length suffix in
  (k <=? n)%nat && String.eqb (substring (n - k) k s) suffix.

(** [s.endswith((a, b, ...))] with a tuple of suffixes *)
Definition endswith_any (s : string) (suffixes : list string) : bool :=
  existsb (endswith s) suffixes.

(** [s.startswith(p)] *)
Definition startswith (s p : string) : bool := String.prefix p s.

(** [s.replace(old, new)] for one-character [old] and [new] *)
Fixpoint replace (old new : ascii) (s : string) : string :=
  match s with
  | EmptyString => EmptyString
  | String c rest =>
      String (if Ascii.eqb c old then new else c) (replace old new rest)
  end.

(** [sub in s] for strings *)
Fixpoint contains (sub s : string) : bool :=
  String.prefix sub s ||
  match s with
  | EmptyString => false
  | String _ rest => contains sub rest
  end.

(** [c.isspace()] on the ASCII range: TAB, LF, VT, FF, CR, the four
    separators FS..US and the blank. *)
Definition isspace (c : ascii) : bool :=
  let n := nat_of_ascii c in
  ((9 <=? n)%nat && (n <=? 13)%nat) || ((28 <=? n)%nat && (n <=? 32)%nat).

Definition utf8 (bytes : list nat) : string :=
  string_of_list_ascii (map ascii_of_nat bytes).

(** The characters beyond ASCII for which [isspace] holds, in UTF-8:
    U+0085, U+00A0, U+1680, U+2000 to U+200A, U+2028, U+2029, U+202F,
    U+205F and U+3000. *)
Definition WIDE_SPACES : list string :=
  map utf8
    ([[194; 133]; [194; 160]; [225; 154; 128]] ++
     map (fun last => [226; 128; last]) (seq 128 11) ++
     [[226; 128; 168]; [226; 128; 169]; [226; 128; 175];
      [226; 129; 159]; [227; 128; 128]]).

(** The number of bytes of the whitespace character [s] starts with, when
    it starts with one. *)
Definition space_width (spaces : list string) (s : string) : option nat :=
  match s with
  | EmptyString => None
  | String c _ =>
      if isspace c then Some 1
      else option_map String.length (find (fun sp => String.prefix sp s) spaces)
  end.

(** Drop [skip] bytes, then every whitespace character in front. *)
Fixpoint lstrip_bytes (spaces : list string) (skip : nat) (s : string) : string :=
  match s with
  | EmptyString => EmptyString
  | String c rest =>
      match skip with
      | S skip' => lstrip_bytes spaces skip' rest
      | O =>
          match space_width spaces s with
          | Some n => lstrip_bytes spaces (n - 1) rest
          | None => s
          end
      end
  end.

Definition lstrip (s : string) : string := lstrip_bytes WIDE_SPACES 0 s.

(** From the end the bytes of a character come in reverse. *)
Definition rstrip (s : string) : string :=
  String.rev (lstrip_bytes (map String.rev WIDE_SPACES) 0 (String.rev s)).

(** [s.strip()] *)
Definition strip (s : string) : string := rstrip (lstrip s).

Definition lower_char (c : ascii) : ascii :=
  let n := nat_of_ascii c in
  if (65 <=? n)%nat && (n <=? 90)%nat then ascii_of_nat (n + 32) else c.

(** [s.lower()] on ASCII text.  Beyond ASCII Python consults the Unicode
    tables and the bytes are left as they are here; no character beyond
    ASCII lowers to ASCII text, but for U+212A (to [k]) and U+0130 (to [i]
    followed by U+0307), so whether the result is a given ASCII text
    without [k] is decided alike. *)
Fixpoint lower (s : string) : string :=
  match s with
  | EmptyString => EmptyString
  | String c rest => String (lower_char c) (lower rest)
  end.

(** [s.isascii()]: on such text [lower] above is Python's. *)
Fixpoint isascii (s : string) : bool :=
  match s with
  | EmptyString => true
  | String c rest => (nat_of_ascii c <? 128)%nat && isascii rest
  end.

(** [s.encode("utf-8")] succeeds: [s] holds no lone surrogate, whose
    bytes would start with ED and a byte from A0 to BF. *)
Fixpoint utf8_encodable (s : string) : bool :=
  match s with
  | EmptyString => true
  | String c rest =>
      match rest with
      | String d _ =>
          negb ((nat_of_ascii c =? 237)%nat &&
                (160 <=? nat_of_ascii d)%nat && (nat_of_ascii d <=? 191)%nat)
      | EmptyString => true
      end && utf8_encodable rest
  end.

(** The characters of a str: in UTF-8 each is a byte followed by the
    continuation bytes (80 to BF) after it. *)
Fixpoint characters (s : string) : list string :=
  match s with
  | EmptyString => []
  | String c rest =>
      match characters rest with
      | String d tail :: others =>
          if (128 <=? nat_of_ascii d)%nat && (nat_of_ascii d <=? 191)%nat
          then String c (String d tail) :: others
          else String c EmptyString :: String d tail :: others
      | others => String c EmptyString :: others
      end
  end.

(** [os.path.join(a, b)] (posixpath) *)
Definition os_path_join (a b : string) : string :=
  if startswith b "/" then b
  else if String.eqb a EmptyString || endswith a "/" then a +:+ b
  else a +:+ "/" +:+ b.

(** Truthiness of a string and of a list *)
Definition truthy_str (s : string) : bool := negb (String.eqb s EmptyString).

Definition truthy_list {A} (l : list A) : bool :=
  match l with [] => false | _ :: _ => true end.

(** [x in l] for a list of strings *)
Definition str_in (x : string) (l : list string) : bool :=
  existsb (String.eqb x) l.

End Py.

(** ** config.py *)

Definition DOCS_PATH : string := "./docs".
Definition INDEX_PATH : string := "./faiss_index".
Definition HASH_DB_PATH : string := "./hash_index.json".
Definition MEMORY_STORIES_PATH : string := Py.os_path_join DOCS_PATH "memory_stories".

Record ModelSettings := {
  model_name : string;
  max_tokens : nat
}.

Definition MODEL_SETTINGS : ModelSettings :=
  {| model_name := "local-llama"; max_tokens := 1500 |}.

(** [LOCAL_LLM_SETTINGS] is read from the process environment
    ([LLAMA_SERVER_URL], [LLAMA_MODEL]) with the defaults below. *)
Record LocalLlmSettings := {
  base_url : string;
  api_key : string;
  model : string
}.

Definition default_LOCAL_LLM_SETTINGS : LocalLlmSettings :=
  {| base_url := "http://localhost:8000/v1";
     api_key := "not-needed";
     model := "Qwen3-30B" |}.

Record VectorStoreSettings := {
  chunk_size : nat;
  chunk_overlap : nat;
  embedding_model : string;
  k : nat
}.

Definition VECTOR_STORE_SETTINGS : VectorStoreSettings :=
  {| chunk_size := 500; chunk_overlap := 50;
     embedding_model := "all-MiniLM-L6-v2"; k := 3 |}.

(** ** Exceptions and results *)

Inductive Exn :=
| ConnectionError (msg : string)
| ValueError (msg : string)
| OSError (msg : string)
| JSONDecodeError (msg : string)
| KeyError (msg : string)
| AttributeError (msg : string)
| TypeError (msg : string)
| LibraryError (msg : string).

(** [str(e)] *)
Definition str (e : Exn) : string :=
  match e with
  | ConnectionError m | ValueError m | OSError m
  | JSONDecodeError m | KeyError m | AttributeError m | TypeError m
  | LibraryError m => m
  end.

Inductive Result (A : Type) :=
| Ok (a : A)
| Raise (e : Exn).

Arguments Ok {A} a.
Arguments Raise {A} e.

(** ** Data *)

(** [langchain.schema.Document]: the text and the ["source"] metadata. *)
Record Document := {
  page_content : string;
  source : string
}.

(** The persisted fingerprint file at [HASH_DB_PATH]: absent, present but
    not JSON (with the message [json.load] raises on it), or a JSON object
    from relative path to hash. *)
Inductive HashFile :=
| HashFileMissing
| HashFileGarbled (msg : string)
| HashFileJson (m : gmap string string).

(** The persisted FAISS index at [INDEX_PATH]: absent, present but
    unreadable, or holding the embedded chunks. *)
Inductive IndexDir :=
| IndexMissing
| IndexCorrupt (msg : string)
| IndexSaved (chunks : list Document).

(** A row of the [stories] table, in column order. *)
Record StoryRow := {
  row_id : nat;
  row_prompt : string;
  row_response : string;
  row_system_prompt : string;
  row_style : string;
  row_created_at : string;
  row_mode : string;
  row_memory_added : nat
}.

(** What leaves the process: HTTP requests to the model server, writes to
    the disk, and the statements run on the database. *)
Inductive Event :=
| HttpGet (url : string)
| ChatCompletion (messages : list (string * string))
| DiskWrite (path : string)
| SqlInsert (table : string)
| SqlSelect (table : string).

(** The state outside the process: the fingerprint file, the index
    directory, the other files written, and the [stories] table of the
    SQLite database, which is taken to be there and to answer. *)
Record World := {
  hash_index_json : HashFile;
  faiss_index : IndexDir;
  written_files : gmap string string;
  stories : list StoryRow;
  trace : list Event
}.

(** A Python value as [json] builds it: [None], a [bool], an [int], a
    [float] (by its [repr]), a [str], a [list], or a [dict] given by its
    members in the order of the text. *)
#[local] Unset Elimination Schemes.
Inductive Json :=
| JNull
| JBool (b : bool)
| JInt (n : Z)
| JFloat (repr : string)
| JString (s : string)
| JArray (items : list Json)
| JObject (members : list (string * Json)).
#[local] Set Elimination Schemes.

(** The reply to [requests.get(base_url + "/models")]: the request fails,
    or a response arrives whose body is not JSON or is the JSON of some
    value.  What [response.json()] raises on a body that is not JSON is a
    [RequestException] in recent versions of requests and a plain
    [json.JSONDecodeError] in older ones. *)
Inductive ModelsBody :=
| BodyNotJson (is_request_exception : bool) (msg : string)
| BodyJson (models_data : Json).

Inductive HttpReply :=
| RequestException (msg : string)
| Response (status_code : nat) (body : ModelsBody).

(** The answers of the operating system, of the libraries and of the model
    server during one call. *)
Record Env := {
  (* the file system below the documents root *)
  os_walk : string -> list (string * list string);
  os_path_relpath : string -> string -> string;
  os_path_isfile : string -> bool;
  read_bytes : string -> Result string;
  open_w : string -> Result unit;
  (* hashlib, and what the langchain loaders read: the decoded text of a
     text file, the text of each page of a PDF, the text of a .docx *)
  md5_hexdigest : string -> string;
  read_text : string -> Result string;
  pdf_page_texts : string -> Result (list string);
  docx2txt_process : string -> Result string;
  (* splitter, embedder and FAISS *)
  split_documents : nat -> nat -> list Document -> list Document;
  SentenceTransformerEmbeddings : string -> Result unit;
  FAISS_missing : Exn;
  FAISS_from_documents : list Document -> Result (list Document);
  FAISS_add_documents : list Document -> list Document -> Result (list Document);
  similarity_search : list Document -> string -> nat -> list Document;
  (* the model server *)
  LOCAL_LLM_SETTINGS : LocalLlmSettings;
  models_endpoint : HttpReply;
  repr_models : list Json -> string;
  chat_endpoint : list (string * string) -> Result string;
  stuff_prompt : list Document -> string -> list (string * string);
  parse_answer : string -> string * string;
  (* clocks *)
  now_isoformat : string;
  CURRENT_TIMESTAMP : string
}.

(** ** The monad of effects *)

Definition IO (A : Type) : Type := World -> Result A * World.

Definition ret {A} (a : A) : IO A := fun w => (Ok a, w).

Definition raise {A} (e : Exn) : IO A := fun w => (Raise e, w).

Definition bind {A B} (m : IO A) (f : A -> IO B) : IO B :=
  fun w =>
    match m w with
    | (Ok a, w') => f a w'
    | (Raise e, w') => (Raise e, w')
    end.

(** [try: m  except Exception as e: h e] *)
Definition try_except {A} (m : IO A) (h : Exn -> IO A) : IO A :=
  fun w =>
    match m w with
    | (Ok a, w') => (Ok a, w')
    | (Raise e, w') => h e w'
    end.

Definition lift {A} (r : Result A) : IO A := fun w => (r, w).

Definition emit (ev : Event) : IO unit :=
  fun w =>
    (Ok tt,
     {| hash_index_json := hash_index_json w;
        faiss_index := faiss_index w;
        written_files := written_files w;
        stories := stories w;
        trace := trace w ++ [ev] |}).

Notation "x <- m ;; f" := (bind m (fun x => f))
  (at level 100, m at next level, right associativity).
Notation "m ;;; f" := (bind m (fun _ => f))
  (at level 100, right associativity).

(** Bind on plain results, for the code that only reads. *)
Definition and_then {A B} (r : Result A) (f : A -> Result B) : Result B :=
  match r with
  | Ok a => f a
  | Raise e => Raise e
  end.

(** ** Storytelling style presets *)

Definition CREATIVE_STORYTELLER_PROMPT : string :=
  String.concat Py.nl
    [ "You are a creative storyteller with a deep understanding of narrative structure and character development. ";
      "Your task is to generate engaging, immersive stories based on user prompts. ";
      "When given a scene or prompt:";
      "1. Create vivid descriptions that engage the senses";
      "2. Develop characters with depth and personality";
      "3. Maintain consistent narrative flow";
      "4. Use appropriate pacing and tension";
      "5. Incorporate relevant context from provided documents when in RAG mode";
      "6. Keep the story coherent and engaging";
      EmptyString;
      "Remember to:";
      "- Stay in character as a storyteller";
      "- Use descriptive language";
      "- Create emotional resonance";
      "- Maintain narrative consistency" ].

Definition ONE_PIECE_WRITER_PROMPT : string :=
  String.concat Py.nl
    [ "You are a masterful storyteller deeply familiar with the world of One Piece, created by Eiichiro Oda. Your task is to write engaging, original short stories set within the One Piece universe, introducing new characters that seamlessly fit into its world.";
      EmptyString;
      "The stories must reflect the tone, themes, and worldbuilding style of One Piece, including:";
      EmptyString;
      "Grand adventures, camaraderie, and humor";
      EmptyString;
      "Pirate crews, Marines, bounty hunters, and Revolutionary Army dynamics";
      EmptyString;
      "Devil Fruits and Haki systems";
      EmptyString;
      "Unique islands and cultures across the Grand Line and beyond";
      EmptyString;
      "Creative powers, exaggerated personalities, and heartfelt motivations";
      EmptyString;
      "Character Creation Guidelines:";
      EmptyString;
      "Design characters with distinct quirks, dreams, and backstories.";
      EmptyString;
      "Assign them fitting roles (e.g., pirate captain, Marine scientist, revolutionary agent, bounty hunter).";
      EmptyString;
      "Include Devil Fruit abilities (if applicable), creative weapons, or Haki types.";
      EmptyString;
      "Narrative Requirements:";
      EmptyString;
      "Each short story should be 400 to 800 words.";
      EmptyString;
      "Introduce the new character naturally within an exciting or emotional scene.";
      EmptyString;
      "Capture the charm, humor, and emotional depth typical of One Piece arcs.";
      EmptyString;
      ("Avoid using canon characters directly; brief references (e.g., " +:+ Py.dquote +:+ "a pirate known as Straw Hat" +:+ Py.dquote +:+ ") are acceptable.");
      EmptyString;
      "Prioritize creativity, emotional resonance, and narrative immersion. Keep the tone accessible for fans of the anime and manga, with a flair for imaginative action and heartfelt character development." ].

Definition STORY_STYLES : gmap string string :=
  {[ "Creative Storyteller" := CREATIVE_STORYTELLER_PROMPT;
     "One Piece Writer" := ONE_PIECE_WRITER_PROMPT ]}.

(** [d.get(key, default)] *)
Definition dict_get (d : gmap string string) (key default : string) : string :=
  match d !! key with
  | Some v => v
  | None => default
  end.

(** [d[key]] *)
Definition dict_item (d : gmap string string) (key : string) : Result string :=
  match d !! key with
  | Some v => Ok v
  | None => Raise (KeyError key)
  end.

(** ** The fingerprint store *)

(** [hash_file(filepath)] *)
Definition hash_file (env : Env) (filepath : string) : Result string :=
  and_then (read_bytes env filepath) (fun bytes => Ok (md5_hexdigest env bytes)).

(** [load_hash_db()] *)
Definition load_hash_db : IO (gmap string string) :=
  fun w =>
    match hash_index_json w with
    | HashFileMissing => (Ok ∅, w)
    | HashFileGarbled msg => (Raise (JSONDecodeError msg), w)
    | HashFileJson m => (Ok m, w)
    end.

(** [json.dump(hash_db, f)] on the file just opened for writing *)
Definition dump_hash_db (hash_db : gmap string string) : IO unit :=
  fun w =>
    (Ok tt,
     {| hash_index_json := HashFileJson hash_db;
        faiss_index := faiss_index w;
        written_files := written_files w;
        stories := stories w;
        trace := trace w ++ [DiskWrite HASH_DB_PATH] |}).

(** [update_hash_db(new_hashes)]; [hash_db.update(new_hashes)] lets the new
    entries win, which is the left-biased union. *)
Definition update_hash_db (env : Env) (new_hashes : gmap string string) : IO unit :=
  hash_db <- load_hash_db ;;
  let hash_db := new_hashes ∪ hash_db in
  lift (open_w env HASH_DB_PATH) ;;;
  dump_hash_db hash_db.

(** ** The document loader *)

(** [TextLoader(file_path).load()]: one document, the text of the file,
    with the path as its source. *)
Definition TextLoader (env : Env) (file_path : string) : Result (list Document) :=
  and_then (read_text env file_path) (fun text =>
    Ok [{| page_content := text; source := file_path |}]).

(** [PyPDFLoader(file_path).load()]: one document per page, each with the
    path as its source; none for a PDF without pages. *)
Definition PyPDFLoader (env : Env) (file_path : string) : Result (list Document) :=
  and_then (pdf_page_texts env file_path) (fun pages =>
    Ok (map (fun text => {| page_content := text; source := file_path |}) pages)).

(** [Docx2txtLoader(file_path).load()]: one document, the text of the
    file, with the path as its source. *)
Definition Docx2txtLoader (env : Env) (file_path : string) : Result (list Document) :=
  and_then (docx2txt_process env file_path) (fun text =>
    Ok [{| page_content := text; source := file_path |}]).

Definition SUPPORTED_SUFFIXES : list string := [".txt"; ".pdf"; ".docx"].

(** The loader chosen by the [if/elif] chain on the file name. *)
Definition load_file (env : Env) (file full_path : string) : Result (list Document) :=
  if Py.endswith file ".txt" then TextLoader env full_path
  else if Py.endswith file ".pdf" then PyPDFLoader env full_path
  else if Py.endswith file ".docx" then Docx2txtLoader env full_path
  else Ok [].

(** [selected_files and rel_path not in selected_files]: [None] and the
    empty list are both falsy. *)
Definition deselected (selected_files : option (list string)) (rel_path : string) : bool :=
  match selected_files with
  | None => false
  | Some l => Py.truthy_list l && negb (Py.str_in rel_path l)
  end.

Definition rel_path_of (env : Env) (path root file : string) : string :=
  os_path_relpath env (Py.os_path_join root file) path.

(** The relative paths of all the files a walk lists. *)
Definition rel_paths (env : Env) (path : string)
    (walk : list (string * list string)) : list string :=
  flat_map (fun d => map (rel_path_of env path (fst d)) (snd d)) walk.

(** The loop state: [docs] and the staged [hashes]. *)
Definition LoaderState : Type := list Document * gmap string string.

(** One iteration of the inner loop of [load_documents]. *)
Definition visit_file (env : Env) (path : string)
    (selected_files : option (list string)) (hash_db : gmap string string)
    (root file : string) (st : LoaderState) : Result LoaderState :=
  if negb (Py.endswith_any file SUPPORTED_SUFFIXES) then Ok st
  else
    let rel_path := rel_path_of env path root file in
    if deselected selected_files rel_path then Ok st
    else
      let full_path := Py.os_path_join path rel_path in
      if negb (os_path_isfile env full_path) then Ok st
      else
        and_then (hash_file env full_path) (fun file_hash =>
          if bool_decide (hash_db !! rel_path = Some file_hash) then Ok st
          else
            and_then (load_file env file full_path) (fun new_docs =>
              Ok (fst st ++ new_docs, <[rel_path := file_hash]> (snd st)))).

Fixpoint visit_files (env : Env) (path : string)
    (selected_files : option (list string)) (hash_db : gmap string string)
    (root : string) (files : list string) (st : LoaderState) : Result LoaderState :=
  match files with
  | [] => Ok st
  | file :: rest =>
      and_then (visit_file env path selected_files hash_db root file st)
               (visit_files env path selected_files hash_db root rest)
  end.

(** The two nested loops over what [os.walk(path)] yields. *)
Fixpoint visit_walk (env : Env) (path : string)
    (selected_files : option (list string)) (hash_db : gmap string string)
    (walk : list (string * list string)) (st : LoaderState) : Result LoaderState :=
  match walk with
  | [] => Ok st
  | (root, files) :: rest =>
      and_then (visit_files env path selected_files hash_db root files st)
               (visit_walk env path selected_files hash_db rest)
  end.

(** The body of [load_documents] over a given walk. *)
Definition load_documents_over (walk : list (string * list string))
    (env : Env) (path : string) (selected_files : option (list string))
    : IO (list Document) :=
  hash_db <- load_hash_db ;;
  st <- lift (visit_walk env path selected_files hash_db walk ([], ∅)) ;;
  update_hash_db env (snd st) ;;;
  ret (fst st).

(** [load_documents(path, selected_files)] *)
Definition load_documents (env : Env) (path : string)
    (selected_files : option (list string)) : IO (list Document) :=
  load_documents_over (os_walk env path) env path selected_files.

(** ** The vector index *)

(** A loaded FAISS store: its chunks, in insertion order. *)
Definition FAISS : Type := list Document.

Definition embedder (env : Env) : IO unit :=
  lift (SentenceTransformerEmbeddings env (embedding_model VECTOR_STORE_SETTINGS)).

(** [FAISS.load_local(INDEX_PATH, embedder, ...)] *)
Definition FAISS_load_local (env : Env) : IO FAISS :=
  fun w =>
    match faiss_index w with
    | IndexMissing => (Raise (FAISS_missing env), w)
    | IndexCorrupt msg => (Raise (LibraryError msg), w)
    | IndexSaved chunks => (Ok chunks, w)
    end.

(** [os.path.exists(INDEX_PATH)] *)
Definition index_exists : IO bool :=
  fun w =>
    (Ok match faiss_index w with IndexMissing => false | _ => true end, w).

(** [vectordb.save_local(INDEX_PATH)] *)
Definition save_local (env : Env) (vectordb : FAISS) : IO unit :=
  lift (open_w env INDEX_PATH) ;;;
  fun w =>
    (Ok tt,
     {| hash_index_json := hash_index_json w;
        faiss_index := IndexSaved vectordb;
        written_files := written_files w;
        stories := stories w;
        trace := trace w ++ [DiskWrite INDEX_PATH] |}).

(** [load_vectordb()] *)
Definition load_vectordb (env : Env) : IO FAISS :=
  try_except
    (embedder env ;;; FAISS_load_local env)
    (fun e => raise e).

(** [append_to_index(new_docs)] *)
Definition append_to_index (env : Env) (new_docs : list Document) : IO FAISS :=
  if negb (Py.truthy_list new_docs) then load_vectordb env
  else
    try_except
      (let chunks :=
         split_documents env (chunk_size VECTOR_STORE_SETTINGS)
                         (chunk_overlap VECTOR_STORE_SETTINGS) new_docs in
       embedder env ;;;
       present <- index_exists ;;
       vectordb <-
         (if present : bool then
            loaded <- FAISS_load_local env ;;
            lift (FAISS_add_documents env loaded chunks)
          else lift (FAISS_from_documents env chunks)) ;;
       save_local env vectordb ;;;
       ret vectordb)
      (fun e => raise e).

(** ** The model server *)

Record ChatOpenAI := {
  llm_model_name : string;
  llm_max_tokens : nat;
  openai_api_key : string;
  openai_api_base : string;
  llm_model : string;
  streaming : bool;
  request_timeout : nat;
  max_retries : nat
}.

(** [type(v).__name__] *)
Definition type_name (v : Json) : string :=
  match v with
  | JNull => "NoneType"
  | JBool _ => "bool"
  | JInt _ => "int"
  | JFloat _ => "float"
  | JString _ => "str"
  | JArray _ => "list"
  | JObject _ => "dict"
  end.

(** The value a dict built from [members] holds under [key]: of two
    members with one key the later wins. *)
Definition dict_lookup (key : string) (members : list (string * Json)) : option Json :=
  option_map snd (find (fun member => String.eqb (fst member) key) (rev members)).

(** The keys of a dict built from [members], each once, in the order of
    their first occurrence. *)
Definition dict_keys (members : list (string * Json)) : list string :=
  rev (remove_dups (rev (map fst members))).

(** [v.get(key, default)]: only a dict has the method. *)
Definition json_get (v : Json) (key : string) (default : Json) : Result Json :=
  match v with
  | JObject members =>
      Ok match dict_lookup key members with
         | Some found => found
         | None => default
         end
  | _ => Raise (AttributeError
                  ("'" +:+ type_name v +:+ "' object has no attribute 'get'"))
  end.

(** [for model in v]: the items of a list, the keys of a dict, the
    characters of a str; nothing else can be iterated. *)
Definition json_iter (v : Json) : Result (list Json) :=
  match v with
  | JArray items => Ok items
  | JObject members => Ok (map JString (dict_keys members))
  | JString s => Ok (map JString (Py.characters s))
  | _ => Raise (TypeError ("'" +:+ type_name v +:+ "' object is not iterable"))
  end.

(** [[f(x) for x in l]] for an [f] that may raise: the first error ends it. *)
Fixpoint list_comprehension {A B} (f : A -> Result B) (l : list A) : Result (list B) :=
  match l with
  | [] => Ok []
  | x :: rest =>
      and_then (f x) (fun y =>
        and_then (list_comprehension f rest) (fun ys => Ok (y :: ys)))
  end.

(** [[model.get("id") for model in models_data.get("data", [])]] *)
Definition model_ids (models_data : Json) : Result (list Json) :=
  and_then (json_get models_data "data" (JArray [])) (fun data =>
    and_then (json_iter data) (fun models =>
      list_comprehension (fun model => json_get model "id" JNull) models)).

(** [name in values] for a str [name]: equal to one of the values, which
    only a str can be. *)
Definition str_in_values (name : string) (values : list Json) : bool :=
  existsb (fun v => match v with JString s => String.eqb name s | _ => false end)
          values.

(** The inner [try] of [load_llm]: the probe of the models endpoint.  Its
    two handlers catch [RequestException] and [json.JSONDecodeError]; what
    the list comprehension raises on JSON of another shape passes both. *)
Definition probe_models (env : Env) : IO unit :=
  let settings := LOCAL_LLM_SETTINGS env in
  emit (HttpGet (base_url settings +:+ "/models")) ;;;
  match models_endpoint env with
  | RequestException msg =>
      raise (ConnectionError ("Failed to connect to local LLM server: " +:+ msg))
  | Response status_code body =>
      if negb (status_code =? 200)%nat then
        raise (ConnectionError ("Server returned status code " +:+ pretty status_code))
      else
        match body with
        | BodyNotJson true msg =>
            raise (ConnectionError ("Failed to connect to local LLM server: " +:+ msg))
        | BodyNotJson false msg =>
            raise (ConnectionError ("Invalid server response format: " +:+ msg))
        | BodyJson models_data =>
            available_models <- lift (model_ids models_data) ;;
            if negb (str_in_values (model settings) available_models) then
              raise (ConnectionError
                       ("Model " +:+ model settings +:+
                        " not found in available models: " +:+
                        repr_models env available_models))
            else ret tt
        end
  end.

(** The world once the models endpoint has been asked. *)
Definition after_probe (env : Env) (w : World) : World :=
  {| hash_index_json := hash_index_json w;
     faiss_index := faiss_index w;
     written_files := written_files w;
     stories := stories w;
     trace := trace w ++ [HttpGet (base_url (LOCAL_LLM_SETTINGS env) +:+ "/models")] |}.

(** [load_llm(system_prompt)]; the argument is not used by the body. *)
Definition load_llm (env : Env) (system_prompt : option string) : IO ChatOpenAI :=
  try_except
    (probe_models env ;;;
     ret {| llm_model_name := model_name MODEL_SETTINGS;
            llm_max_tokens := max_tokens MODEL_SETTINGS;
            openai_api_key := api_key (LOCAL_LLM_SETTINGS env);
            openai_api_base := base_url (LOCAL_LLM_SETTINGS env);
            llm_model := model (LOCAL_LLM_SETTINGS env);
            streaming := false;
            request_timeout := 300;
            max_retries := 5 |})
    (fun e => raise e).

(** [llm.invoke(messages)]: one chat completion, whose text is the
    [content] of the reply. *)
Definition invoke (env : Env) (llm : ChatOpenAI) (messages : list (string * string))
    : IO string :=
  emit (ChatCompletion messages) ;;;
  lift (chat_endpoint env messages).

(** [RetrievalQAWithSourcesChain] of type "stuff" run on a question: the
    [k] nearest chunks are put into one prompt, the model is asked once and
    its reply is split into answer and sources. *)
Definition run_chain (env : Env) (llm : ChatOpenAI) (vectordb : FAISS)
    (question : string) : IO (string * string) :=
  let docs := similarity_search env vectordb question (k VECTOR_STORE_SETTINGS) in
  reply <- invoke env llm (stuff_prompt env docs question) ;;
  ret (parse_answer env reply).

(** ** Stories on disk and in the database *)

Definition story_filename (timestamp : string) : string :=
  "story_" +:+ Py.replace "T" "_" (Py.replace ":" "-" timestamp) +:+ ".txt".

Definition story_file_content (story_text timestamp : string) : string :=
  "[Time: " +:+ timestamp +:+ "]" +:+ Py.nl +:+ Py.nl +:+ story_text +:+ Py.nl.

(** What the two [replace] calls do to one character. *)
Definition sanitize_char (c : ascii) : ascii :=
  if Ascii.eqb c ":" then "-"%char
  else if Ascii.eqb c "T" then "_"%char
  else c.

(** [f.write(text)] on the file just opened for writing at [path], for a
    text that UTF-8 can encode ([Py.utf8_encodable]). *)
Definition write_text (path text : string) : IO unit :=
  fun w =>
    (Ok tt,
     {| hash_index_json := hash_index_json w;
        faiss_index := faiss_index w;
        written_files := <[path := text]> (written_files w);
        stories := stories w;
        trace := trace w ++ [DiskWrite path] |}).

(** [store_story_to_memory(story_text, timestamp)] *)
Definition store_story_to_memory (env : Env) (story_text timestamp : string)
    : IO string :=
  try_except
    (let filename := story_filename timestamp in
     let path := Py.os_path_join MEMORY_STORIES_PATH filename in
     lift (open_w env path) ;;;
     write_text path (story_file_content story_text timestamp) ;;;
     ret path)
    (fun e => raise e).

(** Modelled from the spec: [schema.sql], which gives the [stories] table
    its columns and defaults, is not among the sources.  A completed
    generation is recorded with prompt, response, system prompt, style,
    mode and memory flag; the row id is the next free one and [created_at]
    is the database clock.  The column order is the one
    [export_all_stories] reads. *)
Definition add_story (env : Env) (prompt response system_prompt style mode : string)
    (memory_added : bool) : IO nat :=
  fun w =>
    let id := S (list_max (map row_id (stories w))) in
    (Ok id,
     {| hash_index_json := hash_index_json w;
        faiss_index := faiss_index w;
        written_files := written_files w;
        stories :=
          stories w ++
          [{| row_id := id; row_prompt := prompt; row_response := response;
              row_system_prompt := system_prompt; row_style := style;
              row_created_at := CURRENT_TIMESTAMP env; row_mode := mode;
              row_memory_added := if memory_added then 1 else 0 |}];
        trace := trace w ++ [SqlInsert "stories"] |}).

(** ** Story generation *)

(** The second component of what [generate_story] returns: the empty list
    in direct mode, the chain's ["sources"] in retrieval mode. *)
Inductive Sources :=
| NoSources
| ChainSources (s : string).

(** [custom_prompt or STORY_STYLES.get(selected_style, STORY_STYLES["Creative Storyteller"])] *)
Definition choose_system_prompt (selected_style custom_prompt : string) : Result string :=
  if Py.truthy_str custom_prompt then Ok custom_prompt
  else
    and_then (dict_item STORY_STYLES "Creative Storyteller") (fun default =>
      Ok (dict_get STORY_STYLES selected_style default)).

(** [mode.strip().lower()] *)
Definition normalize_mode (mode : string) : string := Py.lower (Py.strip mode).

(** [generate_story(user_input, selected_style, custom_prompt, mode, selected, db_manager)] *)
Definition generate_story (env : Env)
    (user_input selected_style custom_prompt mode : string)
    (selected : list string) : IO (string * Sources * string) :=
  try_except
    (let timestamp := now_isoformat env in
     system_prompt <- lift (choose_system_prompt selected_style custom_prompt) ;;
     llm <- load_llm env (Some system_prompt) ;;
     let mode := normalize_mode mode in
     if String.eqb mode "direct generation" then
       try_except
         (let messages := [("system", system_prompt); ("user", user_input)] in
          story <- invoke env llm messages ;;
          add_story env user_input story system_prompt selected_style mode false ;;;
          store_story_to_memory env story timestamp ;;;
          ret (story, NoSources, timestamp))
         (fun e => raise (ValueError ("Failed to generate story: " +:+ str e)))
     else
       if negb (Py.truthy_list selected) then
         raise (ValueError "No documents selected for RAG mode")
       else
         docs <- load_documents env DOCS_PATH (Some selected) ;;
         if negb (Py.truthy_list docs) then
           raise (ValueError "No documents available for RAG mode")
         else
           vectordb <- append_to_index env docs ;;
           result <- run_chain env llm vectordb user_input ;;
           let story := fst result in
           let sources := snd result in
           add_story env user_input story system_prompt selected_style mode false ;;;
           store_story_to_memory env story timestamp ;;;
           ret (story, ChainSources sources, timestamp))
    (fun e => raise e).

(** ** Export (db_manager.py) *)

(** One exported story in the "json" format. *)
Record StoryDict := {
  d_id : nat;
  d_prompt : string;
  d_response : string;
  d_system_prompt : string;
  d_style : string;
  d_created_at : string;
  d_mode : string;
  d_memory_added : bool
}.

Definition story_dict (story : StoryRow) : StoryDict :=
  {| d_id := row_id story; d_prompt := row_prompt story;
     d_response := row_response story;
     d_system_prompt := row_system_prompt story;
     d_style := row_style story; d_created_at := row_created_at story;
     d_mode := row_mode story;
     d_memory_added := negb (row_memory_added story =? 0)%nat |}.

Fixpoint insert_desc (r : StoryRow) (sorted : list StoryRow) : list StoryRow :=
  match sorted with
  | [] => [r]
  | x :: rest =>
      if String.leb (row_created_at x) (row_created_at r)
      then r :: sorted
      else x :: insert_desc r rest
  end.

(** [SELECT * FROM stories ORDER BY created_at DESC]; rows with equal
    [created_at] keep their table order. *)
Definition select_stories_desc (rows : list StoryRow) : list StoryRow :=
  fold_right insert_desc [] rows.

Inductive Exported :=
| ExportedJson (dicts : list StoryDict)
| ExportedCsv (rows : list StoryRow).

(** [cursor.execute(...)] of a SELECT on [stories], then [fetchall()]:
    the statement is run and [rows_of] says which rows of the table, in
    which order, come back. *)
Definition fetchall (rows_of : list StoryRow -> list StoryRow) : IO (list StoryRow) :=
  emit (SqlSelect "stories") ;;;
  fun w => (Ok (rows_of (stories w)), w).

(** The world once a SELECT has been run on the [stories] table. *)
Definition after_select (w : World) : World :=
  {| hash_index_json := hash_index_json w;
     faiss_index := faiss_index w;
     written_files := written_files w;
     stories := stories w;
     trace := trace w ++ [SqlSelect "stories"] |}.

(** [DatabaseManager.export_all_stories(format)]: the table is read
    first, the format is looked at afterwards. *)
Definition export_all_stories (format : string) : IO Exported :=
  stories <- fetchall select_stories_desc ;;
  if String.eqb format "json" then ret (ExportedJson (map story_dict stories))
  else if String.eqb format "csv" then ret (ExportedCsv stories)
  else raise (ValueError ("Unsupported format: " +:+ format)).

(** ** What a loader run settles *)

(** A file the loader does process: supported, selected, regular. *)
Definition processed (env : Env) (path : string)
    (selected_files : option (list string)) (root file : string) : Prop :=
  Py.endswith_any file SUPPORTED_SUFFIXES = true /\
  deselected selected_files (rel_path_of env path root file) = false /\
  os_path_isfile env (Py.os_path_join path (rel_path_of env path root file)) = true.

(** What a finished loop knows of a processed file: its hash was read,
    and either the store had it already and the loop left its key alone,
    or the loop staged it. *)
Definition accounted (env : Env) (path : string) (old : gmap string string)
    (st st' : LoaderState) (root file : string) : Prop :=
  exists h,
    hash_file env (Py.os_path_join path (rel_path_of env path root file)) = Ok h /\
    ((old !! rel_path_of env path root file = Some h /\
      snd st' !! rel_path_of env path root file
        = snd st !! rel_path_of env path root file) \/
     snd st' !! rel_path_of env path root file = Some h).

(** Every listed file passes through the loader without effect under the
    fingerprints [hash_db]. *)
Definition settled (env : Env) (path : string)
    (selected_files : option (list string)) (hash_db : gmap string string)
    (walk : list (string * list string)) : Prop :=
  forall root files file, In (root, files) walk -> In file files ->
    forall st : LoaderState,
      visit_file env path selected_files hash_db root file st = Ok st.

(** ** Paging (db_manager.py) and the memory step (main.py) *)

(** What [sqlite3] does with the Python integers bound to [LIMIT ? OFFSET ?]:
    outside the 64-bit range the binding fails. *)
Definition sqlite_int (n : Z) : Result Z :=
  if ((- 2 ^ 63 <=? n) && (n <? 2 ^ 63))%Z then Ok n
  else Raise (LibraryError "Python int too large to convert to SQLite INTEGER").

(** [LIMIT limit OFFSET offset] over the rows of a query: a negative
    offset skips nothing and a negative limit is no limit. *)
Definition limit_offset {A} (limit offset : Z) (rows : list A) : list A :=
  let rest := drop (Z.to_nat offset) rows in
  if (limit <? 0)%Z then rest else take (Z.to_nat limit) rest.

(** [DatabaseManager.get_all_stories(limit, offset)]: the two integers
    are bound, then the statement is run. *)
Definition get_all_stories (limit offset : Z) : IO (list StoryRow) :=
  limit <- lift (sqlite_int limit) ;;
  offset <- lift (sqlite_int offset) ;;
  fetchall (fun rows => limit_offset limit offset (select_stories_desc rows)).

(** The [if add_to_memory:] block of [story_generator_ui]: the story is
    stored again and appended to the index as one document. *)
Definition add_to_memory (env : Env) (answer now : string) : IO FAISS :=
  story_path <- store_story_to_memory env answer now ;;
  let story_doc := {| page_content := answer; source := story_path |} in
  append_to_index env [story_doc].

(** ** A small concrete environment *)

Module Demo.

(** [os.path.relpath(p, start)] for a [p] below [start]. *)
Definition relpath (p start : string) : string :=
  let pre := start +:+ "/" in
  if String.prefix pre p
  then substring (String.length pre) (String.length p - String.length pre) p
  else p.

Definition text_of (p : string) : string := "text of " +:+ p.

Definition make (walk : list (string * list string)) (reply : HttpReply) : Env :=
  {| os_walk := fun _ => walk;
     os_path_relpath := relpath;
     os_path_isfile := fun _ => true;
     read_bytes := fun p => Ok ("bytes of " +:+ p);
     open_w := fun _ => Ok tt;
     md5_hexdigest := fun bytes => "md5 of " +:+ bytes;
     read_text := fun p => Ok (text_of p);
     pdf_page_texts := fun p => Ok [text_of p];
     docx2txt_process := fun p => Ok (text_of p);
     split_documents := fun _ _ docs => docs;
     SentenceTransformerEmbeddings := fun _ => Ok tt;
     FAISS_missing := LibraryError "could not open index.faiss for reading";
     FAISS_from_documents := fun chunks => Ok chunks;
     FAISS_add_documents := fun loaded chunks => Ok (loaded ++ chunks);
     similarity_search := fun chunks _ n => take n chunks;
     LOCAL_LLM_SETTINGS := default_LOCAL_LLM_SETTINGS;
     models_endpoint := reply;
     repr_models := fun _ => "[...]";
     chat_endpoint := fun _ => Ok "Once upon a time.";
     stuff_prompt := fun _ question => [("user", question)];
     parse_answer := fun reply => (reply, EmptyString);
     now_isoformat := "2024-01-01T12:00:00";
     CURRENT_TIMESTAMP := "2024-01-01 12:00:00" |}.

(** The reply of a server that lists the configured model:
    [{"object": "list", "data": [{"id": "Qwen3-30B", "object": "model"}]}] *)
Definition serving : HttpReply :=
  Response 200
    (BodyJson
       (JObject [("object", JString "list");
                 ("data", JArray [JObject [("id", JString "Qwen3-30B");
                                           ("object", JString "model")]])])).

Definition unreachable : HttpReply := RequestException "connection refused".

Definition docs_walk : list (string * list string) :=
  [("./docs", ["a.txt"; "notes.md"; "b.txt"])].

Definition env : Env := make docs_walk serving.

Definition offline : Env := make docs_walk unreachable.

Definition fresh : World :=
  {| hash_index_json := HashFileMissing;
     faiss_index := IndexMissing;
     written_files := ∅;
     stories := [];
     trace := [] |}.

Definition a_doc : Document :=
  {| page_content := "text of ./docs/a.txt"; source := "./docs/a.txt" |}.

(** A row of the [stories] table as direct generation inserts it. *)
Definition story (id : nat) (created_at response : string) : StoryRow :=
  {| row_id := id; row_prompt := "A scene"; row_response := response;
     row_system_prompt := "Be brief."; row_style := "Creative Storyteller";
     row_created_at := created_at; row_mode := "direct generation";
     row_memory_added := 0 |}.

(** A world with three stories in the table, the second inserted being
    the newest. *)
Definition archive : World :=
  {| hash_index_json := HashFileMissing;
     faiss_index := IndexMissing;
     written_files := ∅;
     stories := [story 1 "2024-01-01 12:00:00" "The first.";
                 story 2 "2024-01-03 08:30:00" "The second.";
                 story 3 "2024-01-02 19:45:00" "The third."];
     trace := [] |}.

(** A world in which [a.txt] was fingerprinted and indexed before. *)
Definition indexed : World :=
  {| hash_index_json :=
       HashFileJson {[ "a.txt" := "md5 of bytes of ./docs/a.txt" ]};
     faiss_index := IndexSaved [a_doc];
     written_files := ∅;
     stories := [];
     trace := [] |}.

End Demo.

(** ** Environments and worlds in which something fails *)

Module Trouble.

(** [Demo.env] with a PDF among the documents that its loader rejects. *)
Definition bad_pdf : Env :=
  {| os_walk := fun _ => [("./docs", ["a.txt"; "bad.pdf"])];
     os_path_relpath := os_path_relpath Demo.env;
     os_path_isfile := os_path_isfile Demo.env;
     read_bytes := read_bytes Demo.env;
     open_w := open_w Demo.env;
     md5_hexdigest := md5_hexdigest Demo.env;
     read_text := read_text Demo.env;
     pdf_page_texts := fun _ => Raise (LibraryError "EOF marker not found");
     docx2txt_process := docx2txt_process Demo.env;
     split_documents := split_documents Demo.env;
     SentenceTransformerEmbeddings := SentenceTransformerEmbeddings Demo.env;
     FAISS_missing := FAISS_missing Demo.env;
     FAISS_from_documents := FAISS_from_documents Demo.env;
     FAISS_add_documents := FAISS_add_documents Demo.env;
     similarity_search := similarity_search Demo.env;
     LOCAL_LLM_SETTINGS := LOCAL_LLM_SETTINGS Demo.env;
     models_endpoint := models_endpoint Demo.env;
     repr_models := repr_models Demo.env;
     chat_endpoint := chat_endpoint Demo.env;
     stuff_prompt := stuff_prompt Demo.env;
     parse_answer := parse_answer Demo.env;
     now_isoformat := now_isoformat Demo.env;
     CURRENT_TIMESTAMP := CURRENT_TIMESTAMP Demo.env |}.

(** [Demo.env] over a directory whose one file is a PDF without pages. *)
Definition blank_pdf : Env :=
  {| os_walk := fun _ => [("./docs", ["blank.pdf"])];
     os_path_relpath := os_path_relpath Demo.env;
     os_path_isfile := os_path_isfile Demo.env;
     read_bytes := read_bytes Demo.env;
     open_w := open_w Demo.env;
     md5_hexdigest := md5_hexdigest Demo.env;
     read_text := read_text Demo.env;
     pdf_page_texts := fun _ => Ok [];
     docx2txt_process := docx2txt_process Demo.env;
     split_documents := split_documents Demo.env;
     SentenceTransformerEmbeddings := SentenceTransformerEmbeddings Demo.env;
     FAISS_missing := FAISS_missing Demo.env;
     FAISS_from_documents := FAISS_from_documents Demo.env;
     FAISS_add_documents := FAISS_add_documents Demo.env;
     similarity_search := similarity_search Demo.env;
     LOCAL_LLM_SETTINGS := LOCAL_LLM_SETTINGS Demo.env;
     models_endpoint := models_endpoint Demo.env;
     repr_models := repr_models Demo.env;
     chat_endpoint := chat_endpoint Demo.env;
     stuff_prompt := stuff_prompt Demo.env;
     parse_answer := parse_answer Demo.env;
     now_isoformat := now_isoformat Demo.env;
     CURRENT_TIMESTAMP := CURRENT_TIMESTAMP Demo.env |}.

(** [Demo.env] with a server that answers 200 with JSON of another shape:
    [{"data": null}], and [[]]. *)
Definition null_data : Env :=
  Demo.make Demo.docs_walk (Response 200 (BodyJson (JObject [("data", JNull)]))).

Definition bare_list : Env :=
  Demo.make Demo.docs_walk (Response 200 (BodyJson (JArray []))).


(** [Demo.env] without the embedding model. *)
Definition no_embedder : Env :=
  {| os_walk := os_walk Demo.env;
     os_path_relpath := os_path_relpath Demo.env;
     os_path_isfile := os_path_isfile Demo.env;
     read_bytes := read_bytes Demo.env;
     open_w := open_w Demo.env;
     md5_hexdigest := md5_hexdigest Demo.env;
     read_text := read_text Demo.env;
     pdf_page_texts := pdf_page_texts Demo.env;
     docx2txt_process := docx2txt_process Demo.env;
     split_documents := split_documents Demo.env;
     SentenceTransformerEmbeddings :=
       fun name => Raise (LibraryError ("No sentence-transformers model found: " +:+ name));
     FAISS_missing := FAISS_missing Demo.env;
     FAISS_from_documents := FAISS_from_documents Demo.env;
     FAISS_add_documents := FAISS_add_documents Demo.env;
     similarity_search := similarity_search Demo.env;
     LOCAL_LLM_SETTINGS := LOCAL_LLM_SETTINGS Demo.env;
     models_endpoint := models_endpoint Demo.env;
     repr_models := repr_models Demo.env;
     chat_endpoint := chat_endpoint Demo.env;
     stuff_prompt := stuff_prompt Demo.env;
     parse_answer := parse_answer Demo.env;
     now_isoformat := now_isoformat Demo.env;
     CURRENT_TIMESTAMP := CURRENT_TIMESTAMP Demo.env |}.

Definition garbled : World :=
  {| hash_index_json := HashFileGarbled "Expecting value: line 1 column 1 (char 0)";
     faiss_index := IndexCorrupt "Error in faiss::read_index";
     written_files := ∅;
     stories := [];
     trace := [] |}.

End Trouble.

(** * Properties *)

(** ** The monad *)

Lemma bind_ok {A B} (m : IO A) (f : A -> IO B) (w w' : World) (a : A) :
  m w = (Ok a, w') -> bind m f w = f a w'.
Proof. intros Hm. unfold bind. now rewrite Hm. Qed.

Lemma bind_raise {A B} (m : IO A) (f : A -> IO B) (w w' : World) (e : Exn) :
  m w = (Raise e, w') -> bind m f w = (Raise e, w').
Proof. intros Hm. unfold bind. now rewrite Hm. Qed.

Lemma try_reraise {A} (m : IO A) (w : World) :
  try_except m (fun e => raise e) w = m w.
Proof. unfold try_except, raise. destruct (m w) as [[a | e] w']; reflexivity. Qed.

Lemma bind_inv {A B} (m : IO A) (f : A -> IO B) (w w' : World) (b : B) :
  bind m f w = (Ok b, w') ->
  exists a w1, m w = (Ok a, w1) /\ f a w1 = (Ok b, w').
Proof.
  unfold bind. destruct (m w) as [[a | e] w1]; intros H.
  - exists a, w1. split; [reflexivity | exact H].
  - discriminate H.
Qed.

(** ** The fingerprint store *)

Lemma load_hash_db_world (w w' : World) (r : Result (gmap string string)) :
  load_hash_db w = (r, w') -> w' = w.
Proof.
  unfold load_hash_db. destruct (hash_index_json w); intros H; now inversion H.
Qed.

Lemma update_hash_db_ok (env : Env) (new_hashes old : gmap string string) (w : World) :
  load_hash_db w = (Ok old, w) ->
  open_w env HASH_DB_PATH = Ok tt ->
  update_hash_db env new_hashes w =
    (Ok tt,
     {| hash_index_json := HashFileJson (new_hashes ∪ old);
        faiss_index := faiss_index w;
        written_files := written_files w;
        stories := stories w;
        trace := trace w ++ [DiskWrite HASH_DB_PATH] |}).
Proof.
  intros Hload Hopen. unfold update_hash_db.
  rewrite (bind_ok _ _ _ _ _ Hload).
  unfold bind, lift. rewrite Hopen. reflexivity.
Qed.

Lemma update_hash_db_inv (env : Env) (new_hashes : gmap string string) (w w' : World) :
  update_hash_db env new_hashes w = (Ok tt, w') ->
  exists old,
    load_hash_db w = (Ok old, w) /\
    hash_index_json w' = HashFileJson (new_hashes ∪ old).
Proof.
  unfold update_hash_db. intros H.
  apply bind_inv in H as (old & w1 & Hload & H).
  pose proof (load_hash_db_world _ _ _ Hload) as ->.
  apply bind_inv in H as ([] & w2 & Hopen & H).
  unfold lift in Hopen. inversion Hopen; subst w2.
  unfold dump_hash_db in H. inversion H; subst w'.
  exists old. split; [exact Hload | reflexivity].
Qed.

(** C4.  [load_hash_db] returns the empty mapping, without error, when no
    fingerprint file exists.  [update_hash_db] rewrites the file with the
    persisted mapping overridden by the new entries: a key of the new
    entries reads its new hash, every other key reads what it read before. *)
Theorem fingerprint_store_contract :
  (forall w : World,
     hash_index_json w = HashFileMissing -> load_hash_db w = (Ok ∅, w)) /\
  (forall (env : Env) (new_hashes old : gmap string string) (w : World),
     load_hash_db w = (Ok old, w) ->
     open_w env HASH_DB_PATH = Ok tt ->
     exists (merged : gmap string string) (w' : World),
       update_hash_db env new_hashes w = (Ok tt, w') /\
       load_hash_db w' = (Ok merged, w') /\
       (forall key h, new_hashes !! key = Some h -> merged !! key = Some h) /\
       (forall key, new_hashes !! key = None -> merged !! key = old !! key)).
Proof.
  split.
  - intros w Hmissing. unfold load_hash_db. now rewrite Hmissing.
  - intros env new_hashes old w Hload Hopen.
    eexists (new_hashes ∪ old), _.
    split; [apply update_hash_db_ok; eassumption |].
    split; [reflexivity |].
    split.
    + intros key h Hnew. now apply lookup_union_Some_l.
    + intros key Hnew. now apply lookup_union_r.
Qed.

Lemma fingerprint_store_contract_witness :
  load_hash_db Demo.fresh = (Ok ∅, Demo.fresh) /\
  exists (merged : gmap string string) (w' : World),
    update_hash_db Demo.env {[ "a.txt" := "new" ]} Demo.indexed = (Ok tt, w') /\
    load_hash_db w' = (Ok merged, w') /\
    (forall key h,
       ({[ "a.txt" := "new" ]} : gmap string string) !! key = Some h ->
       merged !! key = Some h) /\
    (forall key,
       ({[ "a.txt" := "new" ]} : gmap string string) !! key = None ->
       merged !! key =
       ({[ "a.txt" := "md5 of bytes of ./docs/a.txt" ]} : gmap string string) !! key).
Proof.
  split.
  - apply (proj1 fingerprint_store_contract). reflexivity.
  - apply (proj2 fingerprint_store_contract Demo.env _ _ Demo.indexed);
      reflexivity.
Defined.

(** ** The document loader *)

Lemma and_then_inv {A B} (r : Result A) (f : A -> Result B) (b : B) :
  and_then r f = Ok b -> exists a, r = Ok a /\ f a = Ok b.
Proof.
  destruct r as [a | e]; simpl; intros H; [eauto | discriminate H].
Qed.

Section LoaderFacts.

Context (env : Env) (path : string) (selected_files : option (list string))
        (hash_db : gmap string string).

Local Abbreviation rel := (rel_path_of env path).
Local Abbreviation visit := (visit_file env path selected_files hash_db).
Local Abbreviation files_loop := (visit_files env path selected_files hash_db).
Local Abbreviation walk_loop := (visit_walk env path selected_files hash_db).

Lemma visit_files_app (root : string) (l1 l2 : list string) (st : LoaderState) :
  files_loop root (l1 ++ l2) st =
  and_then (files_loop root l1 st) (files_loop root l2).
Proof.
  revert st.
  induction l1 as [| file l1 IH]; intros st; simpl; [reflexivity |].
  destruct (visit_file env path selected_files hash_db root file st) as [st1 | e];
    simpl; [apply IH | reflexivity].
Qed.

Lemma visit_walk_app (w1 w2 : list (string * list string)) (st : LoaderState) :
  walk_loop (w1 ++ w2) st = and_then (walk_loop w1 st) (walk_loop w2).
Proof.
  revert st.
  induction w1 as [| [root files] w1 IH]; intros st; simpl; [reflexivity |].
  destruct (visit_files env path selected_files hash_db root files st) as [st1 | e];
    simpl; [apply IH | reflexivity].
Qed.

(** One file only ever appends documents and only ever stages its own
    relative path. *)
Lemma visit_file_effect (root file : string) (st st' : LoaderState) :
  visit root file st = Ok st' ->
  (exists new_docs, fst st' = fst st ++ new_docs) /\
  (forall key, key <> rel root file -> snd st' !! key = snd st !! key).
Proof.
  unfold visit_file.
  assert (Hsame : Ok st = Ok st' ->
            (exists new_docs, fst st' = fst st ++ new_docs) /\
            (forall key, key <> rel_path_of env path root file ->
                         snd st' !! key = snd st !! key)).
  { intros [= <-]. split; [exists []; now rewrite app_nil_r | reflexivity]. }
  destruct (negb (Py.endswith_any file SUPPORTED_SUFFIXES)); [exact Hsame |].
  destruct (deselected selected_files _); [exact Hsame |].
  destruct (negb (os_path_isfile env _)); [exact Hsame |].
  intros H. apply and_then_inv in H as (file_hash & _ & H).
  destruct (bool_decide _); [now apply Hsame |].
  apply and_then_inv in H as (new_docs & _ & [= <-]). simpl. split.
  - now exists new_docs.
  - intros key Hkey. now rewrite lookup_insert_ne.
Qed.

Lemma visit_files_effect (root : string) (files : list string) (st st' : LoaderState) :
  files_loop root files st = Ok st' ->
  (exists new_docs, fst st' = fst st ++ new_docs) /\
  (forall key, ~ In key (map (rel root) files) -> snd st' !! key = snd st !! key).
Proof.
  revert st.
  induction files as [| file files IH]; intros st; simpl.
  - intros [= <-]. split; [exists []; now rewrite app_nil_r | reflexivity].
  - intros H. apply and_then_inv in H as (st1 & H1 & H).
    apply visit_file_effect in H1 as [[d1 Hd1] Hk1].
    apply IH in H as [[d2 Hd2] Hk2]. split.
    + exists (d1 ++ d2). now rewrite Hd2, Hd1, app_assoc.
    + intros key Hkey. rewrite Hk2, Hk1; [reflexivity | |]; intuition.
Qed.

Lemma visit_walk_effect (walk : list (string * list string)) (st st' : LoaderState) :
  walk_loop walk st = Ok st' ->
  (exists new_docs, fst st' = fst st ++ new_docs) /\
  (forall key, ~ In key (rel_paths env path walk) -> snd st' !! key = snd st !! key).
Proof.
  revert st.
  induction walk as [| [root files] walk IH]; intros st; simpl.
  - intros [= <-]. split; [exists []; now rewrite app_nil_r | reflexivity].
  - intros H. apply and_then_inv in H as (st1 & H1 & H).
    apply visit_files_effect in H1 as [[d1 Hd1] Hk1].
    apply IH in H as [[d2 Hd2] Hk2]. split.
    + exists (d1 ++ d2). now rewrite Hd2, Hd1, app_assoc.
    + intros key Hkey. rewrite in_app_iff in Hkey.
      rewrite Hk2, Hk1; [reflexivity | |]; intuition.
Qed.

(** A file that every state passes through unchanged can be dropped from
    the walk. *)
Lemma visit_walk_drop (root file : string)
    (pre post : list (string * list string)) (before after : list string)
    (st : LoaderState) :
  (forall st0, visit root file st0 = Ok st0) ->
  walk_loop (pre ++ (root, before ++ file :: after) :: post) st =
  walk_loop (pre ++ (root, before ++ after) :: post) st.
Proof.
  intros Hskip. rewrite !visit_walk_app.
  destruct (walk_loop pre st) as [st1 | e]; simpl; [| reflexivity].
  rewrite !visit_files_app.
  destruct (files_loop root before st1) as [st2 | e]; simpl; [| reflexivity].
  now rewrite Hskip.
Qed.

End LoaderFacts.

Lemma load_documents_over_inv (walk : list (string * list string)) (env : Env)
    (path : string) (selected_files : option (list string))
    (w w' : World) (docs : list Document) :
  load_documents_over walk env path selected_files w = (Ok docs, w') ->
  exists (old hashes : gmap string string),
    load_hash_db w = (Ok old, w) /\
    visit_walk env path selected_files old walk ([], ∅) = Ok (docs, hashes) /\
    update_hash_db env hashes w = (Ok tt, w').
Proof.
  unfold load_documents_over. intros H.
  apply bind_inv in H as (old & w1 & Hload & H).
  pose proof (load_hash_db_world _ _ _ Hload) as ->.
  apply bind_inv in H as ([docs' hashes] & w2 & Hwalk & H).
  unfold lift in Hwalk. inversion Hwalk as [[Hst Hw]]. subst w2.
  apply bind_inv in H as ([] & w3 & Hupd & H).
  unfold ret in H. inversion H; subst. simpl in *.
  exists old, hashes. repeat split; assumption.
Qed.

(** C5.  A file whose current hash is the one stored under its relative
    path passes through the loader without effect: no document is added
    and nothing is staged, whatever the loop state; the loader returns the
    same documents and leaves the same world as on the walk without that
    file; and the staged batch has no entry for it, no other listed file
    having its relative path. *)
Theorem unchanged_file_is_skipped (env : Env) (path : string)
    (selected_files : option (list string)) (hash_db : gmap string string)
    (root file file_hash : string) :
  hash_file env (Py.os_path_join path (rel_path_of env path root file)) = Ok file_hash ->
  hash_db !! rel_path_of env path root file = Some file_hash ->
  (forall st : LoaderState,
     visit_file env path selected_files hash_db root file st = Ok st) /\
  (forall pre before after post (w : World),
     load_hash_db w = (Ok hash_db, w) ->
     load_documents_over (pre ++ (root, before ++ file :: after) :: post)
                         env path selected_files w =
     load_documents_over (pre ++ (root, before ++ after) :: post)
                         env path selected_files w) /\
  (forall pre before after post docs hashes,
     ~ In (rel_path_of env path root file)
          (rel_paths env path (pre ++ (root, before ++ after) :: post)) ->
     visit_walk env path selected_files hash_db
                (pre ++ (root, before ++ file :: after) :: post) ([], ∅)
       = Ok (docs, hashes) ->
     hashes !! rel_path_of env path root file = None).
Proof.
  intros Hhash Hstored.
  assert (Hskip : forall st : LoaderState,
            visit_file env path selected_files hash_db root file st = Ok st).
  { intros st. unfold visit_file.
    destruct (negb (Py.endswith_any file SUPPORTED_SUFFIXES)); [reflexivity |].
    destruct (deselected selected_files _); [reflexivity |].
    destruct (negb (os_path_isfile env _)); [reflexivity |].
    rewrite Hhash. simpl.
    now rewrite bool_decide_eq_true_2. }
  split; [exact Hskip |]. split.
  - intros pre before after post w Hload.
    unfold load_documents_over.
    rewrite !(bind_ok _ _ _ _ _ Hload).
    now rewrite visit_walk_drop.
  - intros pre before after post docs hashes Hfresh Hwalk.
    rewrite visit_walk_drop in Hwalk by exact Hskip.
    apply visit_walk_effect in Hwalk as [_ Hkeys].
    specialize (Hkeys _ Hfresh). simpl in Hkeys.
    rewrite Hkeys. apply lookup_empty.
Qed.

Lemma unchanged_file_is_skipped_witness :
  load_hash_db Demo.indexed
    = (Ok {[ "a.txt" := "md5 of bytes of ./docs/a.txt" ]}, Demo.indexed) /\
  visit_file Demo.env "./docs" None
             {[ "a.txt" := "md5 of bytes of ./docs/a.txt" ]}
             "./docs" "a.txt" ([], ∅) = Ok ([], ∅) /\
  load_documents Demo.env "./docs" None Demo.indexed
    = load_documents_over [("./docs", ["notes.md"; "b.txt"])]
                          Demo.env "./docs" None Demo.indexed.
Proof.
  pose proof (unchanged_file_is_skipped Demo.env "./docs" None
                {[ "a.txt" := "md5 of bytes of ./docs/a.txt" ]}
                "./docs" "a.txt" "md5 of bytes of ./docs/a.txt"
                eq_refl eq_refl) as (Hvisit & Hover & _).
  split; [reflexivity |]. split; [apply Hvisit |].
  apply (Hover [] [] ["notes.md"; "b.txt"] [] Demo.indexed). reflexivity.
Defined.

(** What the format loaders return is tagged with the path they were
    given, and there is some of it: one document for a text or a .docx
    file, one for each page of a PDF. *)
Lemma load_file_tagged (env : Env) (file full_path : string)
    (new_docs : list Document) :
  load_file env file full_path = Ok new_docs ->
  forall d, In d new_docs -> source d = full_path.
Proof.
  unfold load_file, TextLoader, PyPDFLoader, Docx2txtLoader.
  destruct (Py.endswith file ".txt").
  { intros H. apply and_then_inv in H as (text & _ & [= <-]).
    intros d [<- | []]. reflexivity. }
  destruct (Py.endswith file ".pdf").
  { intros H. apply and_then_inv in H as (pages & _ & [= <-]).
    intros d Hd. apply in_map_iff in Hd as (text & <- & _). reflexivity. }
  destruct (Py.endswith file ".docx").
  { intros H. apply and_then_inv in H as (text & _ & [= <-]).
    intros d [<- | []]. reflexivity. }
  intros [= <-] d [].
Qed.

Lemma load_file_some (env : Env) (file full_path : string)
    (new_docs : list Document) :
  Py.endswith_any file SUPPORTED_SUFFIXES = true ->
  (Py.endswith file ".pdf" = true -> pdf_page_texts env full_path <> Ok []) ->
  load_file env file full_path = Ok new_docs ->
  new_docs <> [].
Proof.
  unfold Py.endswith_any, SUPPORTED_SUFFIXES. cbn [existsb].
  unfold load_file, TextLoader, PyPDFLoader, Docx2txtLoader.
  intros Hext Hpages.
  destruct (Py.endswith file ".txt").
  { intros H. apply and_then_inv in H as (text & _ & [= <-]). discriminate. }
  destruct (Py.endswith file ".pdf").
  { intros H. apply and_then_inv in H as (pages & Hread & [= <-]).
    destruct pages as [| page pages]; [| discriminate].
    now destruct (Hpages eq_refl). }
  destruct (Py.endswith file ".docx"); [| discriminate Hext].
  intros H. apply and_then_inv in H as (text & _ & [= <-]). discriminate.
Qed.

(** C6, as the code has it.  Take a listed file with a supported
    extension that the selection does not exclude, that [os.path.isfile]
    accepts and that has no fingerprint entry, no other listed file having
    its relative path; if it is a PDF, let it have a page.  When the
    loader returns, its result holds a document tagged with the file's
    path: what the file's format loader made of it is not empty, is
    tagged so throughout and stands, in order, in the result.  And the
    fingerprint store then holds the file's current hash under its
    relative path. *)
Theorem new_file_is_loaded_and_fingerprinted (env : Env) (path : string)
    (selected_files : option (list string)) (old : gmap string string)
    (pre post : list (string * list string)) (before after : list string)
    (root file : string) (w w' : World) (docs : list Document) :
  os_walk env path = pre ++ (root, before ++ file :: after) :: post ->
  ~ In (rel_path_of env path root file)
       (rel_paths env path (pre ++ (root, before ++ after) :: post)) ->
  Py.endswith_any file SUPPORTED_SUFFIXES = true ->
  deselected selected_files (rel_path_of env path root file) = false ->
  os_path_isfile env (Py.os_path_join path (rel_path_of env path root file)) = true ->
  (Py.endswith file ".pdf" = true ->
   pdf_page_texts env (Py.os_path_join path (rel_path_of env path root file)) <> Ok []) ->
  load_hash_db w = (Ok old, w) ->
  old !! rel_path_of env path root file = None ->
  load_documents env path selected_files w = (Ok docs, w') ->
  exists (file_hash : string) (new_docs : list Document)
         (merged : gmap string string),
    hash_file env (Py.os_path_join path (rel_path_of env path root file))
      = Ok file_hash /\
    load_file env file (Py.os_path_join path (rel_path_of env path root file))
      = Ok new_docs /\
    new_docs <> [] /\
    (forall d, In d new_docs ->
               source d = Py.os_path_join path (rel_path_of env path root file)) /\
    (exists earlier later, docs = earlier ++ new_docs ++ later) /\
    (exists d, In d docs /\
               source d = Py.os_path_join path (rel_path_of env path root file)) /\
    load_hash_db w' = (Ok merged, w') /\
    merged !! rel_path_of env path root file = Some file_hash.
Proof.
  intros Hwalk Hfresh Hext Hsel Hisfile Hpages Hload Hnone Hrun.
  unfold load_documents in Hrun. rewrite Hwalk in Hrun.
  apply load_documents_over_inv in Hrun as (old' & hashes & Hload' & Hvisit & Hupd).
  rewrite Hload in Hload'. injection Hload' as <-.
  apply update_hash_db_inv in Hupd as (old' & Hload' & Hfile).
  rewrite Hload in Hload'. injection Hload' as <-.
  (* follow the loop up to the file, through it, and to the end *)
  rewrite visit_walk_app in Hvisit.
  apply and_then_inv in Hvisit as (st1 & _ & Hvisit). simpl in Hvisit.
  apply and_then_inv in Hvisit as (st2 & Hfiles & Hpost).
  rewrite visit_files_app in Hfiles.
  apply and_then_inv in Hfiles as (st3 & _ & Hfiles). simpl in Hfiles.
  apply and_then_inv in Hfiles as (st4 & Hfile1 & Hafter).
  unfold visit_file in Hfile1.
  rewrite Hext, Hsel, Hisfile in Hfile1. simpl in Hfile1.
  apply and_then_inv in Hfile1 as (file_hash & Hhash & Hfile1).
  rewrite bool_decide_eq_false_2 in Hfile1 by (rewrite Hnone; discriminate).
  apply and_then_inv in Hfile1 as (new_docs & Hnew & [= <-]).
  apply visit_files_effect in Hafter as [[d1 Hd1] Hk1].
  apply visit_walk_effect in Hpost as [[d2 Hd2] Hk2].
  simpl in *.
  assert (Hlater : ~ In (rel_path_of env path root file)
                        (map (rel_path_of env path root) after) /\
                   ~ In (rel_path_of env path root file) (rel_paths env path post)).
  { unfold rel_paths in *. rewrite flat_map_app in Hfresh. simpl in Hfresh.
    rewrite !in_app_iff, map_app, in_app_iff in Hfresh. tauto. }
  destruct Hlater as [Hafter Hpost].
  pose proof (load_file_tagged _ _ _ _ Hnew) as Htagged.
  pose proof (load_file_some _ _ _ _ Hext Hpages Hnew) as Hsome.
  exists file_hash, new_docs, (hashes ∪ old).
  assert (Hdocs : docs = fst st3 ++ new_docs ++ (d1 ++ d2)).
  { rewrite Hd2, Hd1. now rewrite <- !app_assoc. }
  split; [exact Hhash |]. split; [exact Hnew |].
  split; [exact Hsome |]. split; [exact Htagged |].
  split; [now exists (fst st3), (d1 ++ d2) |]. split; [| split].
  - destruct new_docs as [| d rest]; [contradiction |].
    exists d. split; [| apply Htagged; now left].
    rewrite Hdocs, !in_app_iff. right. left. now left.
  - unfold load_hash_db. now rewrite Hfile.
  - apply lookup_union_Some_l.
    rewrite (Hk2 _ Hpost), (Hk1 _ Hafter). apply lookup_insert_eq.
Qed.

Lemma new_file_is_loaded_and_fingerprinted_witness :
  exists (file_hash : string) (merged : gmap string string),
    hash_file Demo.env "./docs/b.txt" = Ok file_hash /\
    load_file Demo.env "b.txt" "./docs/b.txt"
      = Ok [{| page_content := "text of ./docs/b.txt"; source := "./docs/b.txt" |}] /\
    fst (load_documents Demo.env "./docs" None Demo.indexed)
      = Ok [{| page_content := "text of ./docs/b.txt"; source := "./docs/b.txt" |}] /\
    (exists d,
       In d (match fst (load_documents Demo.env "./docs" None Demo.indexed) with
             | Ok docs => docs
             | Raise _ => []
             end) /\
       source d = "./docs/b.txt") /\
    load_hash_db (snd (load_documents Demo.env "./docs" None Demo.indexed))
      = (Ok merged, snd (load_documents Demo.env "./docs" None Demo.indexed)) /\
    merged !! "b.txt" = Some file_hash.
Proof.
  destruct (new_file_is_loaded_and_fingerprinted
              Demo.env "./docs" None
              {[ "a.txt" := "md5 of bytes of ./docs/a.txt" ]}
              [] [] ["a.txt"; "notes.md"] [] "./docs" "b.txt"
              Demo.indexed
              (snd (load_documents Demo.env "./docs" None Demo.indexed))
              (match fst (load_documents Demo.env "./docs" None Demo.indexed) with
               | Ok docs => docs
               | Raise _ => []
               end))
    as (file_hash & new_docs & merged & Hhash & Hnew & _ & _ & _ & Hthere
        & Hstore & Hkey).
  - reflexivity.
  - vm_compute. intros [H | [H | []]]; discriminate H.
  - reflexivity.
  - reflexivity.
  - reflexivity.
  - discriminate.
  - reflexivity.
  - reflexivity.
  - vm_compute. reflexivity.
  - exists file_hash, merged.
    split; [exact Hhash |]. split; [reflexivity |].
    split; [vm_compute; reflexivity |]. split; [exact Hthere |].
    split; [exact Hstore | exact Hkey].
Defined.

(** C6 as the spec words it fails twice.  On a file the selection leaves
    out: [a.txt] is supported and has no fingerprint, yet with only
    [b.txt] selected no document of [a.txt] is produced and the store
    gets no entry for it.  And on a PDF without pages: [blank.pdf] is
    supported, selected by default and has no fingerprint, the loader
    returns no document at all, yet the store gets its hash. *)
Lemma new_file_without_text_unit :
  (Py.endswith_any "a.txt" SUPPORTED_SUFFIXES = true /\
   In "a.txt" (rel_paths Demo.env "./docs" (os_walk Demo.env "./docs")) /\
   load_hash_db Demo.fresh = (Ok ∅, Demo.fresh) /\
   exists (w' : World) (merged : gmap string string),
     load_documents Demo.env "./docs" (Some ["b.txt"]) Demo.fresh
       = (Ok [{| page_content := "text of ./docs/b.txt";
                 source := "./docs/b.txt" |}], w') /\
     load_hash_db w' = (Ok merged, w') /\
     merged !! "a.txt" = None) /\
  (Py.endswith_any "blank.pdf" SUPPORTED_SUFFIXES = true /\
   rel_paths Trouble.blank_pdf "./docs" (os_walk Trouble.blank_pdf "./docs")
     = ["blank.pdf"] /\
   PyPDFLoader Trouble.blank_pdf "./docs/blank.pdf" = Ok [] /\
   exists (w' : World) (merged : gmap string string),
     load_documents Trouble.blank_pdf "./docs" None Demo.fresh = (Ok [], w') /\
     load_hash_db w' = (Ok merged, w') /\
     merged !! "blank.pdf" = Some "md5 of bytes of ./docs/blank.pdf").
Proof.
  split.
  - split; [reflexivity |]. split; [left; reflexivity |]. split; [reflexivity |].
    eexists _, _. split; [vm_compute; reflexivity |].
    split; [reflexivity |]. vm_compute. reflexivity.
  - split; [reflexivity |]. split; [reflexivity |]. split; [reflexivity |].
    eexists _, _. split; [vm_compute; reflexivity |].
    split; [reflexivity |]. vm_compute. reflexivity.
Qed.

(** C9.  The empty selection list deselects nothing, and the loader run
    with it is the loader run with no selection at all; on a fresh store
    with [a.txt] and [b.txt] listed it loads both rather than none. *)
Theorem empty_selection_is_no_selection :
  (forall rel_path : string, deselected (Some []) rel_path = false) /\
  (forall (env : Env) (path : string) (w : World),
     load_documents env path (Some []) w = load_documents env path None w) /\
  map source
      (match fst (load_documents Demo.env "./docs" (Some []) Demo.fresh) with
       | Ok docs => docs
       | Raise _ => []
       end)
    = ["./docs/a.txt"; "./docs/b.txt"].
Proof.
  split; [reflexivity |].
  split; [| vm_compute; reflexivity].
  intros env path w. unfold load_documents, load_documents_over.
  assert (Hwalk : forall hash_db walk st,
            visit_walk env path (Some []) hash_db walk st =
            visit_walk env path None hash_db walk st).
  { intros hash_db walk. induction walk as [| [root files] walk IH]; intros st;
      simpl; [reflexivity |].
    assert (Hfiles : forall st0,
              visit_files env path (Some []) hash_db root files st0 =
              visit_files env path None hash_db root files st0).
    { induction files as [| file files IHf]; intros st0; simpl; [reflexivity |].
      change (visit_file env path (Some []) hash_db root file st0)
        with (visit_file env path None hash_db root file st0).
      destruct (visit_file env path None hash_db root file st0); simpl;
        [apply IHf | reflexivity]. }
    rewrite Hfiles.
    destruct (visit_files env path None hash_db root files st); simpl;
      [apply IH | reflexivity]. }
  unfold bind. destruct (load_hash_db w) as [[hash_db | e] w1]; [| reflexivity].
  now rewrite Hwalk.
Qed.

(** ** The vector index *)

Lemma load_vectordb_world (env : Env) (w : World) :
  snd (load_vectordb env w) = w.
Proof.
  unfold load_vectordb. rewrite try_reraise.
  unfold bind, embedder, lift, FAISS_load_local.
  destruct (SentenceTransformerEmbeddings env _); [| reflexivity].
  destruct (faiss_index w); reflexivity.
Qed.

(** C2.  Called with no documents, [append_to_index] never changes the
    world: neither the persisted index nor any other file is written and
    the trace gains no event.  When an index is persisted and the embedder
    loads, the call returns that index, and so does a second call, the
    persisted index being what it was. *)
Theorem empty_append_is_idempotent (env : Env) (w : World) (chunks : list Document) :
  SentenceTransformerEmbeddings env (embedding_model VECTOR_STORE_SETTINGS) = Ok tt ->
  faiss_index w = IndexSaved chunks ->
  (forall w0 : World, snd (append_to_index env [] w0) = w0) /\
  append_to_index env [] w = (Ok chunks, w) /\
  (append_to_index env [] ;;; append_to_index env []) w = (Ok chunks, w).
Proof.
  intros Hembed Hindex.
  assert (Hone : append_to_index env [] w = (Ok chunks, w)).
  { unfold append_to_index. simpl. unfold load_vectordb. rewrite try_reraise.
    unfold bind, embedder, lift, FAISS_load_local.
    now rewrite Hembed, Hindex. }
  split; [| split].
  - intros w0. unfold append_to_index. simpl. apply load_vectordb_world.
  - exact Hone.
  - rewrite (bind_ok _ _ _ _ _ Hone). exact Hone.
Qed.

Lemma empty_append_is_idempotent_witness :
  (forall w0 : World, snd (append_to_index Demo.env [] w0) = w0) /\
  append_to_index Demo.env [] Demo.indexed = (Ok [Demo.a_doc], Demo.indexed) /\
  (append_to_index Demo.env [] ;;; append_to_index Demo.env []) Demo.indexed
    = (Ok [Demo.a_doc], Demo.indexed).
Proof.
  apply (empty_append_is_idempotent Demo.env Demo.indexed [Demo.a_doc]);
    reflexivity.
Defined.

(** C3.  With no persisted index, [append_to_index] called with no
    documents raises: the error is the one [FAISS.load_local] raises for
    the missing index once the embedder has loaded, nothing is returned
    and no index is created. *)
Theorem empty_append_without_index (env : Env) (w : World) :
  faiss_index w = IndexMissing ->
  (exists e : Exn, append_to_index env [] w = (Raise e, w)) /\
  (SentenceTransformerEmbeddings env (embedding_model VECTOR_STORE_SETTINGS) = Ok tt ->
   append_to_index env [] w = (Raise (FAISS_missing env), w)) /\
  faiss_index (snd (append_to_index env [] w)) = IndexMissing.
Proof.
  intros Hindex.
  assert (Hrun : append_to_index env [] w =
                 (match SentenceTransformerEmbeddings env
                          (embedding_model VECTOR_STORE_SETTINGS) with
                  | Ok _ => Raise (FAISS_missing env)
                  | Raise e => Raise e
                  end, w)).
  { unfold append_to_index. simpl. unfold load_vectordb. rewrite try_reraise.
    unfold bind, embedder, lift, FAISS_load_local.
    destruct (SentenceTransformerEmbeddings env _); [| reflexivity].
    now rewrite Hindex. }
  split; [| split].
  - rewrite Hrun. destruct (SentenceTransformerEmbeddings env _); eauto.
  - intros Hembed. rewrite Hrun. now rewrite Hembed.
  - rewrite Hrun. exact Hindex.
Qed.

Lemma empty_append_without_index_witness :
  faiss_index Demo.fresh = IndexMissing /\
  append_to_index Demo.env [] Demo.fresh
    = (Raise (LibraryError "could not open index.faiss for reading"), Demo.fresh).
Proof.
  split; [reflexivity |].
  apply (empty_append_without_index Demo.env Demo.fresh); reflexivity.
Defined.

(** ** Stories on disk *)

Lemma prefix_app (sub rest : string) : String.prefix sub (sub +:+ rest) = true.
Proof.
  induction sub as [| c sub IH]; simpl; [now destruct rest |].
  destruct (ascii_dec c c); [exact IH | contradiction].
Qed.

Lemma append_assoc (a b c : string) : (a +:+ b) +:+ c = a +:+ b +:+ c.
Proof.
  induction a as [| x a IH]; [reflexivity |].
  change (String x ((a +:+ b) +:+ c) = String x (a +:+ b +:+ c)).
  now rewrite IH.
Qed.

Lemma contains_prefix (sub s : string) :
  String.prefix sub s = true -> Py.contains sub s = true.
Proof. intros H. destruct s; cbn [Py.contains]; now rewrite H. Qed.

Lemma contains_app (a sub b : string) : Py.contains sub (a +:+ sub +:+ b) = true.
Proof.
  induction a as [| c a IH].
  - change (EmptyString +:+ sub +:+ b) with (sub +:+ b).
    apply contains_prefix, prefix_app.
  - change (String c a +:+ sub +:+ b) with (String c (a +:+ sub +:+ b)).
    cbn [Py.contains]. rewrite IH. apply orb_true_r.
Qed.

Lemma replace_length (old new : ascii) (s : string) :
  String.length (Py.replace old new s) = String.length s.
Proof. induction s as [| c s IH]; simpl; [reflexivity | now rewrite IH]. Qed.

Lemma replace_get (old new : ascii) (s : string) (i : nat) :
  String.get i (Py.replace old new s) =
  option_map (fun c => if Ascii.eqb c old then new else c) (String.get i s).
Proof.
  revert i. induction s as [| c s IH]; intros i; simpl; [reflexivity |].
  destruct i as [| i]; [reflexivity | apply IH].
Qed.

Lemma sanitize_get (timestamp : string) (i : nat) :
  String.get i (Py.replace "T" "_" (Py.replace ":" "-" timestamp)) =
  option_map sanitize_char (String.get i timestamp).
Proof.
  rewrite !replace_get. destruct (String.get i timestamp) as [c |]; simpl;
    [| reflexivity].
  unfold sanitize_char. destruct (Ascii.eqb c ":"); reflexivity.
Qed.

Lemma memory_path (name : string) :
  Py.os_path_join MEMORY_STORIES_PATH ("story_" +:+ name)
  = "./docs/memory_stories/story_" +:+ name.
Proof. reflexivity. Qed.

(** C7.  When the file can be opened for writing and the text to write
    can be encoded in UTF-8 (no lone surrogate in the story or in the
    timestamp), [store_story_to_memory] returns the path
    [./docs/memory_stories/story_<name>.txt], where [<name>] is the
    timestamp with every [:] turned into [-] and every [T] into [_], and
    the file at that path then holds exactly ["[Time: <timestamp>]"], an
    empty line, the story and a final newline; so the content contains
    the timestamp and the story. *)
Theorem story_is_stored (env : Env) (story_text timestamp : string) (w : World) :
  open_w env (Py.os_path_join MEMORY_STORIES_PATH (story_filename timestamp)) = Ok tt ->
  Py.utf8_encodable (story_file_content story_text timestamp) = true ->
  exists (name : string) (w' : World),
    String.length name = String.length timestamp /\
    (forall i, String.get i name = option_map sanitize_char (String.get i timestamp)) /\
    store_story_to_memory env story_text timestamp w
      = (Ok ("./docs/memory_stories/story_" +:+ name +:+ ".txt"), w') /\
    written_files w' !! ("./docs/memory_stories/story_" +:+ name +:+ ".txt")
      = Some ("[Time: " +:+ timestamp +:+ "]" +:+ Py.nl +:+ Py.nl +:+
              story_text +:+ Py.nl) /\
    Py.contains timestamp (story_file_content story_text timestamp) = true /\
    Py.contains story_text (story_file_content story_text timestamp) = true.
Proof.
  intros Hopen _.
  exists (Py.replace "T" "_" (Py.replace ":" "-" timestamp)).
  eexists. split; [now rewrite !replace_length |].
  split; [apply sanitize_get |]. split; [| split; [| split]].
  - unfold store_story_to_memory. rewrite try_reraise.
    unfold bind, lift. rewrite Hopen. unfold write_text, ret.
    unfold story_filename. rewrite memory_path. reflexivity.
  - cbn [written_files]. apply lookup_insert_eq.
  - unfold story_file_content. apply contains_app.
  - unfold story_file_content.
    pose proof (contains_app ("[Time: " +:+ timestamp +:+ "]" +:+ Py.nl +:+ Py.nl)
                             story_text Py.nl) as H.
    rewrite !append_assoc in H. exact H.
Qed.

Lemma story_is_stored_witness :
  open_w Demo.env
         (Py.os_path_join MEMORY_STORIES_PATH (story_filename "2024-01-01T12:00:00"))
    = Ok tt /\
  Py.utf8_encodable (story_file_content "A tale." "2024-01-01T12:00:00") = true /\
  (exists (name : string) (w' : World),
     String.length name = 19 /\
     (forall i, String.get i name
                = option_map sanitize_char (String.get i "2024-01-01T12:00:00")) /\
     store_story_to_memory Demo.env "A tale." "2024-01-01T12:00:00" Demo.fresh
       = (Ok ("./docs/memory_stories/story_" +:+ name +:+ ".txt"), w') /\
     written_files w' !! ("./docs/memory_stories/story_" +:+ name +:+ ".txt")
       = Some ("[Time: 2024-01-01T12:00:00]" +:+ Py.nl +:+ Py.nl +:+
               "A tale." +:+ Py.nl) /\
     Py.contains "2024-01-01T12:00:00"
                 (story_file_content "A tale." "2024-01-01T12:00:00") = true /\
     Py.contains "A tale."
                 (story_file_content "A tale." "2024-01-01T12:00:00") = true) /\
  fst (store_story_to_memory Demo.env "A tale." "2024-01-01T12:00:00" Demo.fresh)
    = Ok "./docs/memory_stories/story_2024-01-01_12-00-00.txt".
Proof.
  split; [reflexivity |]. split; [reflexivity |]. split; [| reflexivity].
  apply (story_is_stored Demo.env "A tale." "2024-01-01T12:00:00" Demo.fresh);
    reflexivity.
Defined.

(** ** Export *)



(** ** The system prompt *)

Lemma story_styles_lookup (style : string) :
  STORY_STYLES !! style =
  if String.eqb style "Creative Storyteller" then Some CREATIVE_STORYTELLER_PROMPT
  else if String.eqb style "One Piece Writer" then Some ONE_PIECE_WRITER_PROMPT
  else None.
Proof.
  unfold STORY_STYLES.
  destruct (String.eqb_spec style "Creative Storyteller") as [-> | H1].
  - apply lookup_insert_eq.
  - rewrite lookup_insert_ne by congruence.
    destruct (String.eqb_spec style "One Piece Writer") as [-> | H2].
    + apply lookup_singleton_eq.
    + apply lookup_singleton_ne. congruence.
Qed.

(** ** Story generation *)

Lemma choose_system_prompt_ok (selected_style custom_prompt : string) :
  exists system_prompt,
    choose_system_prompt selected_style custom_prompt = Ok system_prompt.
Proof.
  unfold choose_system_prompt, dict_item.
  destruct (Py.truthy_str custom_prompt); [eauto |].
  rewrite story_styles_lookup. simpl. eauto.
Qed.

(** The probe asks the models endpoint once, whatever the reply. *)
Lemma probe_models_run (env : Env) (w : World) :
  snd (probe_models env w) = after_probe env w.
Proof.
  unfold probe_models, bind, emit, raise, ret, lift. simpl.
  destruct (models_endpoint env) as [msg | status_code body]; simpl; [reflexivity |].
  destruct (negb (status_code =? 200)%nat); simpl; [reflexivity |].
  destruct body as [[|] msg | models_data]; simpl; [reflexivity | reflexivity |].
  destruct (model_ids models_data) as [ids | e]; simpl; [| reflexivity].
  destruct (negb (str_in_values _ ids)); reflexivity.
Qed.

(** What the probe comes to, reply by reply. *)
Lemma probe_models_result (env : Env) (w : World) :
  fst (probe_models env w) =
  match models_endpoint env with
  | RequestException msg =>
      Raise (ConnectionError ("Failed to connect to local LLM server: " +:+ msg))
  | Response status_code body =>
      if (status_code =? 200)%nat then
        match body with
        | BodyNotJson true msg =>
            Raise (ConnectionError ("Failed to connect to local LLM server: " +:+ msg))
        | BodyNotJson false msg =>
            Raise (ConnectionError ("Invalid server response format: " +:+ msg))
        | BodyJson models_data =>
            match model_ids models_data with
            | Ok ids =>
                if str_in_values (model (LOCAL_LLM_SETTINGS env)) ids then Ok tt
                else Raise (ConnectionError
                              ("Model " +:+ model (LOCAL_LLM_SETTINGS env) +:+
                               " not found in available models: " +:+
                               repr_models env ids))
            | Raise e => Raise e
            end
        end
      else Raise (ConnectionError ("Server returned status code " +:+ pretty status_code))
  end.
Proof.
  unfold probe_models, bind, emit, raise, ret, lift. simpl.
  destruct (models_endpoint env) as [msg | status_code body]; simpl; [reflexivity |].
  destruct (status_code =? 200)%nat; simpl; [| reflexivity].
  destruct body as [[|] msg | models_data]; simpl; [reflexivity | reflexivity |].
  destruct (model_ids models_data) as [ids | e]; simpl; [| reflexivity].
  destruct (str_in_values _ ids); reflexivity.
Qed.

Lemma load_llm_run (env : Env) (system_prompt : option string) (w : World) :
  snd (load_llm env system_prompt w) = after_probe env w /\
  (forall e, fst (probe_models env w) = Raise e ->
             fst (load_llm env system_prompt w) = Raise e) /\
  (fst (probe_models env w) = Ok tt ->
   exists llm, fst (load_llm env system_prompt w) = Ok llm).
Proof.
  pose proof (probe_models_run env w) as Hworld.
  unfold load_llm. rewrite try_reraise. unfold bind, ret.
  destruct (probe_models env w) as [[[] | e] w1]; simpl in *; subst w1.
  - split; [reflexivity |]. split; [discriminate | eauto].
  - split; [reflexivity |]. split; [now intros e' [= <-] | discriminate].
Qed.

(** C1, as the code has it.  In retrieval mode with nothing selected,
    [generate_story] first asks the models endpoint, once, and then raises:
    the validation error when the probe succeeded, the error the probe
    raised otherwise.  Nothing else happens: no chat completion is
    requested, nothing is written, and the trace gains the one [HttpGet]. *)
Theorem retrieval_without_selection (env : Env)
    (user_input selected_style custom_prompt mode : string) (w : World) :
  normalize_mode mode <> "direct generation" ->
  exists e : Exn,
    generate_story env user_input selected_style custom_prompt mode [] w
      = (Raise e,
         {| hash_index_json := hash_index_json w;
            faiss_index := faiss_index w;
            written_files := written_files w;
            stories := stories w;
            trace := trace w ++
                     [HttpGet (base_url (LOCAL_LLM_SETTINGS env) +:+ "/models")] |}) /\
    (fst (probe_models env w) = Ok tt ->
     e = ValueError "No documents selected for RAG mode") /\
    (forall e', fst (probe_models env w) = Raise e' -> e = e').
Proof.
  intros Hmode.
  destruct (choose_system_prompt_ok selected_style custom_prompt) as [sp Hsp].
  destruct (load_llm_run env (Some sp) w) as (Hworld & Hfail & Hok).
  unfold generate_story. rewrite try_reraise.
  unfold bind at 1. unfold lift at 1. rewrite Hsp.
  unfold bind at 1.
  destruct (load_llm env (Some sp) w) as [[llm | e] w1] eqn:Hllm;
    simpl in Hworld; subst w1.
  - destruct (String.eqb_spec (normalize_mode mode) "direct generation");
      [contradiction |].
    simpl. unfold raise.
    exists (ValueError "No documents selected for RAG mode").
    split; [reflexivity |]. split; [reflexivity |].
    intros e' He'. specialize (Hfail _ He'). discriminate Hfail.
  - exists e. split; [reflexivity |]. split.
    + intros Hprobed. destruct (Hok Hprobed) as [llm Hllm']. discriminate Hllm'.
    + intros e' He'. specialize (Hfail _ He'). simpl in Hfail.
      now injection Hfail.
Qed.

Lemma retrieval_without_selection_witness :
  normalize_mode "RAG with Documents" = "rag with documents" /\
  normalize_mode (Py.utf8 [194; 160] +:+ "Direct Generation" +:+ Py.utf8 [227; 128; 128])
    = "direct generation" /\
  (exists e : Exn,
     generate_story Demo.env "A scene" "One Piece Writer" EmptyString
                    "RAG with Documents" [] Demo.indexed
       = (Raise e,
          {| hash_index_json :=
               HashFileJson {[ "a.txt" := "md5 of bytes of ./docs/a.txt" ]};
             faiss_index := IndexSaved [Demo.a_doc];
             written_files := ∅;
             stories := [];
             trace := [HttpGet "http://localhost:8000/v1/models"] |}) /\
     (fst (probe_models Demo.env Demo.indexed) = Ok tt ->
      e = ValueError "No documents selected for RAG mode") /\
     (forall e', fst (probe_models Demo.env Demo.indexed) = Raise e' -> e = e')) /\
  fst (probe_models Demo.env Demo.indexed) = Ok tt /\
  fst (probe_models Trouble.null_data Demo.indexed)
    = Raise (TypeError "'NoneType' object is not iterable") /\
  (exists e : Exn,
     generate_story Trouble.null_data "A scene" "One Piece Writer" EmptyString
                    "RAG with Documents" [] Demo.indexed
       = (Raise e,
          {| hash_index_json :=
               HashFileJson {[ "a.txt" := "md5 of bytes of ./docs/a.txt" ]};
             faiss_index := IndexSaved [Demo.a_doc];
             written_files := ∅;
             stories := [];
             trace := [HttpGet "http://localhost:8000/v1/models"] |}) /\
     (fst (probe_models Trouble.null_data Demo.indexed) = Ok tt ->
      e = ValueError "No documents selected for RAG mode") /\
     (forall e', fst (probe_models Trouble.null_data Demo.indexed) = Raise e' ->
                 e = e')).
Proof.
  split; [reflexivity |]. split; [reflexivity |].
  split; [| split; [reflexivity | split; [reflexivity |]]].
  - apply (retrieval_without_selection Demo.env "A scene" "One Piece Writer"
             EmptyString "RAG with Documents" Demo.indexed).
    vm_compute. discriminate.
  - apply (retrieval_without_selection Trouble.null_data "A scene" "One Piece Writer"
             EmptyString "RAG with Documents" Demo.indexed).
    vm_compute. discriminate.
Defined.

(** C1 as the spec words it fails: with the server up, the
    validation error comes after a request to the models endpoint; with
    the server down, the call ends in the connection error instead. *)
Lemma retrieval_without_selection_asks_server_first :
  generate_story Demo.env "A scene" "Creative Storyteller" EmptyString
                 "RAG with Documents" [] Demo.fresh
    = (Raise (ValueError "No documents selected for RAG mode"),
       {| hash_index_json := HashFileMissing;
          faiss_index := IndexMissing;
          written_files := ∅;
          stories := [];
          trace := [HttpGet "http://localhost:8000/v1/models"] |}) /\
  generate_story Demo.offline "A scene" "Creative Storyteller" EmptyString
                 "RAG with Documents" [] Demo.fresh
    = (Raise (ConnectionError
                "Failed to connect to local LLM server: connection refused"),
       {| hash_index_json := HashFileMissing;
          faiss_index := IndexMissing;
          written_files := ∅;
          stories := [];
          trace := [HttpGet "http://localhost:8000/v1/models"] |}).
Proof. split; vm_compute; reflexivity. Qed.

(** In direct mode, once the probe has succeeded, the chosen system
    prompt is what the chat completion is asked with. *)
Lemma direct_generation_sends_system_prompt (env : Env)
    (user_input selected_style custom_prompt mode system_prompt : string)
    (selected : list string) (w : World) :
  choose_system_prompt selected_style custom_prompt = Ok system_prompt ->
  fst (probe_models env w) = Ok tt ->
  normalize_mode mode = "direct generation" ->
  In (ChatCompletion [("system", system_prompt); ("user", user_input)])
     (trace (snd (generate_story env user_input selected_style custom_prompt
                                 mode selected w))).
Proof.
  intros Hsp Hprobe Hmode.
  destruct (load_llm_run env (Some system_prompt) w) as (Hworld & _ & Hok).
  destruct (Hok Hprobe) as [llm Hllm].
  unfold generate_story. rewrite try_reraise.
  unfold bind at 1. unfold lift at 1. rewrite Hsp.
  unfold bind at 1.
  destruct (load_llm env (Some system_prompt) w) as [r w1].
  simpl in Hworld, Hllm. subst r w1.
  rewrite Hmode. simpl.
  unfold try_except, invoke, bind, emit, lift, add_story, store_story_to_memory,
    try_except, bind, lift, write_text, ret, raise.
  simpl.
  destruct (chat_endpoint env _) as [story | e]; simpl.
  - destruct (open_w env _); simpl; rewrite !in_app_iff; simpl; tauto.
  - rewrite !in_app_iff; simpl; tauto.
Qed.

(** C10.  A non-empty custom prompt is the system prompt whatever the
    style.  With the empty custom prompt the system prompt is the preset
    of the selected style when the style names one, and the "Creative
    Storyteller" preset otherwise; the presets are the two of
    [STORY_STYLES].  The prompt so chosen is the one [generate_story]
    sends as the system message in direct mode. *)
Theorem system_prompt_fallback (selected_style custom_prompt : string) :
  (custom_prompt <> EmptyString ->
   choose_system_prompt selected_style custom_prompt = Ok custom_prompt) /\
  (forall preset,
     STORY_STYLES !! selected_style = Some preset ->
     choose_system_prompt selected_style EmptyString = Ok preset) /\
  (STORY_STYLES !! selected_style = None ->
   choose_system_prompt selected_style EmptyString
     = Ok CREATIVE_STORYTELLER_PROMPT) /\
  STORY_STYLES !! "Creative Storyteller" = Some CREATIVE_STORYTELLER_PROMPT /\
  (is_Some (STORY_STYLES !! selected_style) <->
   selected_style = "Creative Storyteller" \/ selected_style = "One Piece Writer") /\
  (forall (env : Env) (user_input mode system_prompt : string)
          (selected : list string) (w : World),
     choose_system_prompt selected_style custom_prompt = Ok system_prompt ->
     fst (probe_models env w) = Ok tt ->
     normalize_mode mode = "direct generation" ->
     In (ChatCompletion [("system", system_prompt); ("user", user_input)])
        (trace (snd (generate_story env user_input selected_style custom_prompt
                                    mode selected w)))).
Proof.
  assert (Hdefault : dict_item STORY_STYLES "Creative Storyteller"
                     = Ok CREATIVE_STORYTELLER_PROMPT).
  { unfold dict_item. now rewrite story_styles_lookup. }
  split; [| split; [| split; [| split; [| split]]]].
  - intros Hcustom. unfold choose_system_prompt, Py.truthy_str.
    destruct (String.eqb_spec custom_prompt EmptyString); [contradiction |].
    reflexivity.
  - intros preset Hpreset. unfold choose_system_prompt. simpl.
    rewrite Hdefault. simpl. unfold dict_get. now rewrite Hpreset.
  - intros Hnone. unfold choose_system_prompt. simpl.
    rewrite Hdefault. simpl. unfold dict_get. now rewrite Hnone.
  - apply story_styles_lookup.
  - rewrite story_styles_lookup.
    destruct (String.eqb_spec selected_style "Creative Storyteller") as [-> | H1].
    + split; [now left | intros _; eauto].
    + destruct (String.eqb_spec selected_style "One Piece Writer") as [-> | H2].
      * split; [now right | intros _; eauto].
      * split; [intros [x Hx]; discriminate Hx | intros [? | ?]; contradiction].
  - intros env user_input mode system_prompt selected w.
    apply direct_generation_sends_system_prompt.
Qed.

(** * Further properties *)

(** ** The fingerprint store and the loader, run after run *)

Lemma load_hash_db_ext (w1 w2 : World) :
  hash_index_json w1 = hash_index_json w2 ->
  fst (load_hash_db w1) = fst (load_hash_db w2).
Proof.
  intros H. unfold load_hash_db. rewrite H.
  destruct (hash_index_json w2); reflexivity.
Qed.

Lemma update_hash_db_raise (env : Env) (new_hashes : gmap string string)
    (w w' : World) (e : Exn) :
  update_hash_db env new_hashes w = (Raise e, w') -> w' = w.
Proof.
  unfold update_hash_db, bind, lift, dump_hash_db, load_hash_db.
  destruct (hash_index_json w); destruct (open_w env HASH_DB_PATH);
    intros H; inversion H; reflexivity.
Qed.

(** A walk all of whose files pass through unchanged leaves the loop
    state as it was. *)
Lemma visit_walk_all_skip (env : Env) (path : string)
    (selected_files : option (list string)) (hash_db : gmap string string)
    (walk : list (string * list string)) (st : LoaderState) :
  (forall root files file, In (root, files) walk -> In file files ->
     forall st0, visit_file env path selected_files hash_db root file st0 = Ok st0) ->
  visit_walk env path selected_files hash_db walk st = Ok st.
Proof.
  induction walk as [| [root files] walk IH]; intros Hskip; simpl; [reflexivity |].
  assert (Hfiles : forall l, (forall file, In file l -> In file files) ->
            visit_files env path selected_files hash_db root l st = Ok st).
  { induction l as [| file l IHl]; intros Hsub; simpl; [reflexivity |].
    rewrite (Hskip root files file); [| now left | apply Hsub; now left].
    simpl. apply IHl. intros f Hf. apply Hsub. now right. }
  rewrite Hfiles by auto. simpl. apply IH.
  intros root' files' file Hin. apply Hskip. now right.
Qed.

Section Outcome.

Context (env : Env) (path : string) (selected_files : option (list string))
        (old : gmap string string).

Local Abbreviation processed := (processed env path selected_files).
Local Abbreviation accounted := (accounted env path old).

Lemma visit_files_outcome (root : string) (files : list string)
    (st st' : LoaderState) :
  NoDup (map (rel_path_of env path root) files) ->
  visit_files env path selected_files old root files st = Ok st' ->
  forall file, In file files -> processed root file -> accounted st st' root file.
Proof.
  revert st. induction files as [| f files IH]; intros st Hnodup Hrun file Hin Hproc;
    [destruct Hin |].
  simpl in Hnodup. apply NoDup_cons in Hnodup as [Hfresh Hnodup].
  rewrite list_elem_of_In in Hfresh.
  simpl in Hrun. apply and_then_inv in Hrun as (st1 & Hf & Hrest).
  destruct Hin as [<- | Hin].
  - destruct Hproc as (Hext & Hsel & Hisfile).
    pose proof (visit_files_effect _ _ _ _ _ _ _ _ Hrest) as [_ Hkeys].
    specialize (Hkeys _ Hfresh).
    unfold visit_file in Hf. rewrite Hext, Hsel, Hisfile in Hf. simpl in Hf.
    apply and_then_inv in Hf as (h & Hhash & Hf).
    exists h. split; [exact Hhash |].
    destruct (bool_decide (old !! rel_path_of env path root f = Some h)) eqn:Hdec.
    + apply bool_decide_eq_true_1 in Hdec. injection Hf as <-.
      left. split; [exact Hdec | exact Hkeys].
    + apply and_then_inv in Hf as (new_docs & _ & [= <-]).
      right. rewrite Hkeys. simpl. apply lookup_insert_eq.
  - destruct (IH st1 Hnodup Hrest file Hin Hproc) as (h & Hhash & Hcase).
    exists h. split; [exact Hhash |].
    destruct Hcase as [[Hold Hsame] | Hstaged]; [left | now right].
    split; [exact Hold |]. rewrite Hsame.
    apply (visit_file_effect _ _ _ _ _ _ _ _ Hf).
    intros Heq. apply Hfresh. rewrite <- Heq. now apply in_map.
Qed.

Lemma visit_walk_outcome (walk : list (string * list string))
    (st st' : LoaderState) :
  NoDup (rel_paths env path walk) ->
  visit_walk env path selected_files old walk st = Ok st' ->
  forall root files file, In (root, files) walk -> In file files ->
    processed root file -> accounted st st' root file.
Proof.
  revert st. induction walk as [| [r fs] walk IH];
    intros st Hnodup Hrun root files file Hdir Hin Hproc; [destruct Hdir |].
  unfold rel_paths in Hnodup. simpl in Hnodup.
  apply NoDup_app in Hnodup as (Hhead & Hdisjoint & Htail).
  simpl in Hrun. apply and_then_inv in Hrun as (st1 & Hfiles & Hrest).
  destruct Hdir as [[= -> ->] | Hdir].
  - destruct (visit_files_outcome _ _ _ _ Hhead Hfiles file Hin Hproc)
      as (h & Hhash & Hcase).
    assert (Hkeep : snd st' !! rel_path_of env path root file
                    = snd st1 !! rel_path_of env path root file).
    { apply (visit_walk_effect _ _ _ _ _ _ _ Hrest).
      rewrite <- list_elem_of_In. apply Hdisjoint.
      apply list_elem_of_In. now apply in_map. }
    exists h. split; [exact Hhash |]. rewrite Hkeep. exact Hcase.
  - destruct (IH st1 Htail Hrest root files file Hdir Hin Hproc)
      as (h & Hhash & Hcase).
    exists h. split; [exact Hhash |].
    destruct Hcase as [[Hold Hsame] | Hstaged]; [left | now right].
    split; [exact Hold |]. rewrite Hsame.
    apply (visit_files_effect _ _ _ _ _ _ _ _ Hfiles).
    intros Hclash. apply list_elem_of_In in Hclash.
    apply (Hdisjoint _ Hclash). apply list_elem_of_In.
    apply in_flat_map. exists (root, files).
    split; [exact Hdir | now apply in_map].
Qed.

End Outcome.

(** The world a successful [update_hash_db] leaves. *)
Lemma update_hash_db_inv_world (env : Env) (new_hashes : gmap string string)
    (w w' : World) :
  update_hash_db env new_hashes w = (Ok tt, w') ->
  exists old,
    load_hash_db w = (Ok old, w) /\
    open_w env HASH_DB_PATH = Ok tt /\
    w' = {| hash_index_json := HashFileJson (new_hashes ∪ old);
            faiss_index := faiss_index w;
            written_files := written_files w;
            stories := stories w;
            trace := trace w ++ [DiskWrite HASH_DB_PATH] |}.
Proof.
  intros H. unfold update_hash_db in H.
  apply bind_inv in H as (old & w1 & Hload & H).
  pose proof (load_hash_db_world _ _ _ Hload) as ->.
  apply bind_inv in H as ([] & w2 & Hopen & H).
  unfold lift in Hopen. injection Hopen as Hopen <-.
  unfold dump_hash_db in H. injection H as <-.
  exists old. repeat split; assumption.
Qed.

(** After a run that returned, every listed file is settled under the
    fingerprints the run left. *)
Lemma run_settles (walk : list (string * list string)) (env : Env) (path : string)
    (selected_files : option (list string)) (w w' : World) (docs : list Document) :
  NoDup (rel_paths env path walk) ->
  load_documents_over walk env path selected_files w = (Ok docs, w') ->
  exists merged,
    hash_index_json w' = HashFileJson merged /\
    open_w env HASH_DB_PATH = Ok tt /\
    settled env path selected_files merged walk.
Proof.
  intros Hnodup Hrun.
  apply load_documents_over_inv in Hrun as (old & hashes & Hload & Hwalk & Hupd).
  apply update_hash_db_inv_world in Hupd as (old' & Hload' & Hopen & ->).
  rewrite Hload in Hload'. injection Hload' as <-.
  exists (hashes ∪ old). split; [reflexivity |]. split; [exact Hopen |].
  intros root files file Hdir Hin st. unfold visit_file.
  destruct (Py.endswith_any file SUPPORTED_SUFFIXES) eqn:Hext; [| reflexivity].
  destruct (deselected selected_files _) eqn:Hsel; [reflexivity |].
  destruct (os_path_isfile env _) eqn:Hisfile; [| reflexivity].
  simpl.
  destruct (visit_walk_outcome _ _ _ _ _ _ _ Hnodup Hwalk root files file Hdir Hin)
    as (h & Hhash & Hcase); [now repeat split |].
  rewrite Hhash. simpl. rewrite bool_decide_eq_true_2; [reflexivity |].
  destruct Hcase as [[Hold Hsame] | Hstaged].
  - simpl in Hsame. rewrite lookup_empty in Hsame.
    now rewrite lookup_union_r.
  - now apply lookup_union_Some_l.
Qed.

(** A run over a settled walk returns no document and rewrites the store
    with what it held. *)
Lemma settled_run (walk : list (string * list string)) (env : Env) (path : string)
    (selected_files : option (list string)) (merged : gmap string string)
    (w : World) :
  settled env path selected_files merged walk ->
  load_hash_db w = (Ok merged, w) ->
  open_w env HASH_DB_PATH = Ok tt ->
  load_documents_over walk env path selected_files w
    = (Ok [],
       {| hash_index_json := HashFileJson merged;
          faiss_index := faiss_index w;
          written_files := written_files w;
          stories := stories w;
          trace := trace w ++ [DiskWrite HASH_DB_PATH] |}).
Proof.
  intros Hsettled Hload Hopen. unfold load_documents_over.
  rewrite (bind_ok _ _ _ _ _ Hload).
  rewrite (visit_walk_all_skip _ _ _ _ _ _ Hsettled).
  unfold bind at 1. unfold lift at 1. simpl.
  rewrite (bind_ok _ _ _ _ _ (update_hash_db_ok env ∅ merged w Hload Hopen)).
  unfold ret. now rewrite (left_id_L ∅ (∪)).
Qed.

(** X1.  A second run of the loader right after one that returned, on the
    same directory, returns no document: every file is now fingerprinted.
    It rewrites the fingerprint file with the mapping it holds and changes
    nothing else.  Distinct listed files are taken to have distinct
    relative paths. *)
Theorem second_run_loads_nothing (env : Env) (path : string)
    (selected_files : option (list string)) (w w' : World) (docs : list Document) :
  NoDup (rel_paths env path (os_walk env path)) ->
  load_documents env path selected_files w = (Ok docs, w') ->
  load_documents env path selected_files w'
    = (Ok [],
       {| hash_index_json := hash_index_json w';
          faiss_index := faiss_index w';
          written_files := written_files w';
          stories := stories w';
          trace := trace w' ++ [DiskWrite HASH_DB_PATH] |}).
Proof.
  intros Hnodup Hrun. unfold load_documents in *.
  destruct (run_settles _ _ _ _ _ _ _ Hnodup Hrun) as (merged & Hfile & Hopen & Hs).
  assert (Hload : load_hash_db w' = (Ok merged, w')).
  { unfold load_hash_db. now rewrite Hfile. }
  rewrite (settled_run _ _ _ _ _ _ Hs Hload Hopen). now rewrite Hfile.
Qed.

Lemma demo_paths_distinct :
  NoDup (rel_paths Demo.env "./docs" (os_walk Demo.env "./docs")).
Proof.
  change (NoDup ["a.txt"; "notes.md"; "b.txt"]).
  repeat (apply NoDup_cons; split; [rewrite list_elem_of_In; simpl; intuition discriminate |]).
  apply NoDup_nil. exact I.
Qed.

Lemma second_run_loads_nothing_witness :
  map source
      (match fst (load_documents Demo.env "./docs" None Demo.fresh) with
       | Ok docs => docs
       | Raise _ => []
       end) = ["./docs/a.txt"; "./docs/b.txt"] /\
  fst (load_documents Demo.env "./docs" None
         (snd (load_documents Demo.env "./docs" None Demo.fresh))) = Ok [].
Proof.
  split; [vm_compute; reflexivity |].
  rewrite (second_run_loads_nothing Demo.env "./docs" None Demo.fresh
             (snd (load_documents Demo.env "./docs" None Demo.fresh))
             [Demo.a_doc; {| page_content := "text of ./docs/b.txt";
                             source := "./docs/b.txt" |}]
             demo_paths_distinct).
  - reflexivity.
  - vm_compute. reflexivity.
Defined.

(** X2.  A run of the loader that raises (the fingerprint file does not
    parse, a file cannot be read, a format loader fails, the fingerprint
    file cannot be opened for writing) leaves the world as it found it:
    the hashes staged so far are dropped and nothing is written. *)
Theorem failed_load_writes_nothing (env : Env) (path : string)
    (selected_files : option (list string)) (w w' : World) (e : Exn) :
  load_documents env path selected_files w = (Raise e, w') -> w' = w.
Proof.
  unfold load_documents, load_documents_over, bind, lift, ret.
  destruct (load_hash_db w) as [[hash_db | e0] w1] eqn:Hload;
    pose proof (load_hash_db_world _ _ _ Hload) as ->.
  - destruct (visit_walk env path selected_files hash_db (os_walk env path) ([], ∅))
      as [st | e1].
    + destruct (update_hash_db env (snd st) w) as [[[] | e2] w2] eqn:Hupd.
      * discriminate.
      * intros [= _ <-]. now apply update_hash_db_raise in Hupd.
    + now intros [= _ <-].
  - now intros [= _ <-].
Qed.

Lemma failed_load_writes_nothing_witness :
  load_documents Trouble.bad_pdf "./docs" None Demo.fresh
    = (Raise (LibraryError "EOF marker not found"), Demo.fresh).
Proof.
  transitivity (Raise (A := list Document) (LibraryError "EOF marker not found"),
                snd (load_documents Trouble.bad_pdf "./docs" None Demo.fresh)).
  - vm_compute. reflexivity.
  - apply (f_equal (pair _)).
    apply (failed_load_writes_nothing Trouble.bad_pdf "./docs" None Demo.fresh _
             (LibraryError "EOF marker not found")).
    vm_compute. reflexivity.
Defined.

(** X3.  The loader only adds to the fingerprint store.  When it returns,
    every path that had a fingerprint still has one, and the fingerprint of
    a path that is not the relative path of a listed file (a file deleted
    since, say) is what it was; index, stored stories and database are
    untouched and the one write is that of the fingerprint file. *)
Theorem fingerprints_are_never_pruned (env : Env) (path : string)
    (selected_files : option (list string)) (old : gmap string string)
    (w w' : World) (docs : list Document) :
  load_hash_db w = (Ok old, w) ->
  load_documents env path selected_files w = (Ok docs, w') ->
  exists merged : gmap string string,
    hash_index_json w' = HashFileJson merged /\
    (forall key, is_Some (old !! key) -> is_Some (merged !! key)) /\
    (forall key, ~ In key (rel_paths env path (os_walk env path)) ->
                 merged !! key = old !! key) /\
    faiss_index w' = faiss_index w /\
    written_files w' = written_files w /\
    stories w' = stories w /\
    trace w' = trace w ++ [DiskWrite HASH_DB_PATH].
Proof.
  intros Hload Hrun. unfold load_documents in Hrun.
  apply load_documents_over_inv in Hrun as (old' & hashes & Hload' & Hwalk & Hupd).
  rewrite Hload in Hload'. injection Hload' as <-.
  apply update_hash_db_inv_world in Hupd as (old' & Hload' & _ & ->).
  rewrite Hload in Hload'. injection Hload' as <-.
  exists (hashes ∪ old). split; [reflexivity |].
  split; [| split; [| repeat split]].
  - intros key [h Hh]. destruct (hashes !! key) as [h' |] eqn:Hstaged.
    + exists h'. now apply lookup_union_Some_l.
    + exists h. now rewrite lookup_union_r.
  - intros key Hkey.
    apply visit_walk_effect in Hwalk as [_ Hkeys].
    specialize (Hkeys _ Hkey). simpl in Hkeys. rewrite lookup_empty in Hkeys.
    now rewrite lookup_union_r.
Qed.

Lemma fingerprints_are_never_pruned_witness :
  exists merged : gmap string string,
    hash_index_json
      (snd (load_documents Demo.env "./docs" None
              {| hash_index_json := HashFileJson {[ "gone.txt" := "old hash" ]};
                 faiss_index := IndexMissing;
                 written_files := ∅;
                 stories := [];
                 trace := [] |}))
      = HashFileJson merged /\
    merged !! "gone.txt" = Some "old hash" /\
    is_Some (merged !! "a.txt").
Proof.
  destruct (fingerprints_are_never_pruned
              Demo.env "./docs" None {[ "gone.txt" := "old hash" ]}
              {| hash_index_json := HashFileJson {[ "gone.txt" := "old hash" ]};
                 faiss_index := IndexMissing;
                 written_files := ∅;
                 stories := [];
                 trace := [] |}
              (snd (load_documents Demo.env "./docs" None
                      {| hash_index_json := HashFileJson {[ "gone.txt" := "old hash" ]};
                         faiss_index := IndexMissing;
                         written_files := ∅;
                         stories := [];
                         trace := [] |}))
              [Demo.a_doc; {| page_content := "text of ./docs/b.txt";
                              source := "./docs/b.txt" |}])
    as (merged & Hfile & _ & Hkept & _).
  - reflexivity.
  - vm_compute. reflexivity.
  - exists merged. split; [exact Hfile |]. split.
    + rewrite Hkept; [reflexivity |].
      vm_compute. intros [H | [H | [H | []]]]; discriminate H.
    + vm_compute in Hfile. injection Hfile as <-. vm_compute. eauto.
Defined.

(** X4.  Two updates of the fingerprint store in a row leave the mapping
    that the single update with their union, later entries first, leaves:
    where both name a path, the later hash is stored. *)
Theorem updates_compose (env : Env) (first second old : gmap string string)
    (w : World) :
  load_hash_db w = (Ok old, w) ->
  open_w env HASH_DB_PATH = Ok tt ->
  exists w1 w2 w12 : World,
    update_hash_db env first w = (Ok tt, w1) /\
    update_hash_db env second w1 = (Ok tt, w2) /\
    update_hash_db env (second ∪ first) w = (Ok tt, w12) /\
    hash_index_json w2 = hash_index_json w12 /\
    hash_index_json w2 = HashFileJson (second ∪ first ∪ old) /\
    (forall key h, second !! key = Some h ->
                   (second ∪ first ∪ old) !! key = Some h).
Proof.
  intros Hload Hopen.
  pose proof (update_hash_db_ok env first old w Hload Hopen) as H1.
  set (w1 := {| hash_index_json := HashFileJson (first ∪ old);
                faiss_index := faiss_index w;
                written_files := written_files w;
                stories := stories w;
                trace := trace w ++ [DiskWrite HASH_DB_PATH] |}) in *.
  assert (Hload1 : load_hash_db w1 = (Ok (first ∪ old), w1)) by reflexivity.
  pose proof (update_hash_db_ok env second _ w1 Hload1 Hopen) as H2.
  pose proof (update_hash_db_ok env (second ∪ first) old w Hload Hopen) as H12.
  eexists w1, _, _. split; [exact H1 |]. split; [exact H2 |].
  split; [exact H12 |]. simpl.
  split; [now rewrite (assoc_L (∪)) |].
  split; [now rewrite (assoc_L (∪)) |].
  intros key h Hkey. apply lookup_union_Some_l. now apply lookup_union_Some_l.
Qed.

Lemma updates_compose_witness :
  exists w1 w2 w12 : World,
    update_hash_db Demo.env {[ "a.txt" := "h1" ]} Demo.fresh = (Ok tt, w1) /\
    update_hash_db Demo.env {[ "a.txt" := "h2" ]} w1 = (Ok tt, w2) /\
    update_hash_db Demo.env ({[ "a.txt" := "h2" ]} ∪ {[ "a.txt" := "h1" ]}) Demo.fresh
      = (Ok tt, w12) /\
    hash_index_json w2 = hash_index_json w12 /\
    hash_index_json w2
      = HashFileJson ({[ "a.txt" := "h2" ]} ∪ {[ "a.txt" := "h1" ]} ∪ ∅) /\
    (forall key h,
       ({[ "a.txt" := "h2" ]} : gmap string string) !! key = Some h ->
       (({[ "a.txt" := "h2" ]} ∪ {[ "a.txt" := "h1" ]} ∪ ∅) : gmap string string) !! key
         = Some h).
Proof.
  apply (updates_compose Demo.env {[ "a.txt" := "h1" ]} {[ "a.txt" := "h2" ]} ∅
           Demo.fresh); reflexivity.
Defined.

(** X5.  A fingerprint file that does not parse stops everything that
    reads it: [load_hash_db], [update_hash_db] and [load_documents] raise
    the decoder's error, the file is not overwritten and nothing else is
    written, whatever the directory holds. *)
Theorem garbled_store_is_never_overwritten (env : Env) (path msg : string)
    (selected_files : option (list string)) (new_hashes : gmap string string)
    (w : World) :
  hash_index_json w = HashFileGarbled msg ->
  load_hash_db w = (Raise (JSONDecodeError msg), w) /\
  update_hash_db env new_hashes w = (Raise (JSONDecodeError msg), w) /\
  load_documents env path selected_files w = (Raise (JSONDecodeError msg), w).
Proof.
  intros Hfile.
  assert (Hload : load_hash_db w = (Raise (JSONDecodeError msg), w)).
  { unfold load_hash_db. now rewrite Hfile. }
  split; [exact Hload |]. split.
  - unfold update_hash_db. now rewrite (bind_raise _ _ _ _ _ Hload).
  - unfold load_documents, load_documents_over.
    now rewrite (bind_raise _ _ _ _ _ Hload).
Qed.

Lemma garbled_store_is_never_overwritten_witness :
  load_hash_db Trouble.garbled
    = (Raise (JSONDecodeError "Expecting value: line 1 column 1 (char 0)"),
       Trouble.garbled) /\
  update_hash_db Demo.env {[ "a.txt" := "h" ]} Trouble.garbled
    = (Raise (JSONDecodeError "Expecting value: line 1 column 1 (char 0)"),
       Trouble.garbled) /\
  load_documents Demo.env "./docs" None Trouble.garbled
    = (Raise (JSONDecodeError "Expecting value: line 1 column 1 (char 0)"),
       Trouble.garbled).
Proof.
  apply (garbled_store_is_never_overwritten Demo.env "./docs" _ None
           {[ "a.txt" := "h" ]} Trouble.garbled).
  reflexivity.
Defined.

(** ** The vector index, beyond the empty append *)

(** What a call of [append_to_index] with documents comes to: the index is
    saved and returned, or the call raises and nothing has changed. *)
Lemma append_to_index_cases (env : Env) (doc : Document) (docs : list Document)
    (w : World) :
  let chunks := split_documents env (chunk_size VECTOR_STORE_SETTINGS)
                                (chunk_overlap VECTOR_STORE_SETTINGS) (doc :: docs) in
  (exists vectordb,
     append_to_index env (doc :: docs) w
       = (Ok vectordb,
          {| hash_index_json := hash_index_json w;
             faiss_index := IndexSaved vectordb;
             written_files := written_files w;
             stories := stories w;
             trace := trace w ++ [DiskWrite INDEX_PATH] |}) /\
     SentenceTransformerEmbeddings env (embedding_model VECTOR_STORE_SETTINGS) = Ok tt /\
     match faiss_index w with
     | IndexMissing => FAISS_from_documents env chunks = Ok vectordb
     | IndexCorrupt _ => False
     | IndexSaved loaded => FAISS_add_documents env loaded chunks = Ok vectordb
     end) \/
  (exists e, append_to_index env (doc :: docs) w = (Raise e, w)).
Proof.
  intros chunks. unfold append_to_index. simpl. rewrite try_reraise.
  unfold bind, embedder, lift, index_exists, FAISS_load_local, save_local, bind, lift, ret.
  fold chunks.
  destruct (SentenceTransformerEmbeddings env _) as [[] | e]; [| right; eauto].
  destruct (faiss_index w) as [| msg | loaded] eqn:Hindex; simpl;
    rewrite ?Hindex; simpl.
  - destruct (FAISS_from_documents env _) as [vectordb | e] eqn:Hbuilt;
      [| right; eauto].
    destruct (open_w env INDEX_PATH) as [[] | e]; [| right; eauto].
    left. exists vectordb. split; [reflexivity |]. split; reflexivity.
  - right; eauto.
  - destruct (FAISS_add_documents env loaded _) as [vectordb | e] eqn:Hbuilt;
      [| right; eauto].
    destruct (open_w env INDEX_PATH) as [[] | e]; [| right; eauto].
    left. exists vectordb. split; [reflexivity |]. split; reflexivity.
Qed.

(** X6.  An [append_to_index] with documents that returns has saved what
    it returns: the persisted index is the returned one (built from the
    chunks when there was none, the loaded one extended by the chunks
    otherwise), the only write is that of the index, and [load_vectordb],
    or an append with no documents, then gives the same index back. *)
Theorem append_then_load (env : Env) (new_docs : list Document)
    (w w' : World) (vectordb : FAISS) :
  new_docs <> [] ->
  append_to_index env new_docs w = (Ok vectordb, w') ->
  w' = {| hash_index_json := hash_index_json w;
          faiss_index := IndexSaved vectordb;
          written_files := written_files w;
          stories := stories w;
          trace := trace w ++ [DiskWrite INDEX_PATH] |} /\
  load_vectordb env w' = (Ok vectordb, w') /\
  append_to_index env [] w' = (Ok vectordb, w') /\
  match faiss_index w with
  | IndexMissing =>
      FAISS_from_documents env
        (split_documents env (chunk_size VECTOR_STORE_SETTINGS)
                         (chunk_overlap VECTOR_STORE_SETTINGS) new_docs) = Ok vectordb
  | IndexCorrupt _ => False
  | IndexSaved loaded =>
      FAISS_add_documents env loaded
        (split_documents env (chunk_size VECTOR_STORE_SETTINGS)
                         (chunk_overlap VECTOR_STORE_SETTINGS) new_docs) = Ok vectordb
  end.
Proof.
  intros Hdocs Hrun. destruct new_docs as [| doc docs]; [contradiction |].
  destruct (append_to_index_cases env doc docs w)
    as [(v & Hv & Hembed & Hbuilt) | (e & He)];
    rewrite Hrun in *; [| discriminate He].
  injection Hv as -> ->.
  assert (Hload : load_vectordb env
                    {| hash_index_json := hash_index_json w;
                       faiss_index := IndexSaved v;
                       written_files := written_files w;
                       stories := stories w;
                       trace := trace w ++ [DiskWrite INDEX_PATH] |}
                  = (Ok v, {| hash_index_json := hash_index_json w;
                              faiss_index := IndexSaved v;
                              written_files := written_files w;
                              stories := stories w;
                              trace := trace w ++ [DiskWrite INDEX_PATH] |})).
  { unfold load_vectordb. rewrite try_reraise.
    unfold bind, embedder, lift, FAISS_load_local. now rewrite Hembed. }
  split; [reflexivity |]. split; [exact Hload |]. split; [exact Hload | exact Hbuilt].
Qed.

Lemma append_then_load_witness :
  append_to_index Demo.env [Demo.a_doc] Demo.fresh
    = (Ok [Demo.a_doc],
       {| hash_index_json := HashFileMissing;
          faiss_index := IndexSaved [Demo.a_doc];
          written_files := ∅;
          stories := [];
          trace := [DiskWrite INDEX_PATH] |}) /\
  load_vectordb Demo.env
    {| hash_index_json := HashFileMissing;
       faiss_index := IndexSaved [Demo.a_doc];
       written_files := ∅;
       stories := [];
       trace := [DiskWrite INDEX_PATH] |}
    = (Ok [Demo.a_doc],
       {| hash_index_json := HashFileMissing;
          faiss_index := IndexSaved [Demo.a_doc];
          written_files := ∅;
          stories := [];
          trace := [DiskWrite INDEX_PATH] |}).
Proof.
  split; [reflexivity |].
  apply (append_then_load Demo.env [Demo.a_doc] Demo.fresh _ [Demo.a_doc]);
    [discriminate | reflexivity].
Defined.

(** X7.  An [append_to_index] that raises has written nothing, whatever
    the documents; and over an index that is present but cannot be read it
    always raises, so a corrupt index is never replaced by a fresh one. *)
Theorem failed_append_writes_nothing (env : Env) (docs : list Document) (w : World) :
  (forall e w', append_to_index env docs w = (Raise e, w') -> w' = w) /\
  (forall msg, faiss_index w = IndexCorrupt msg ->
     exists e, append_to_index env docs w = (Raise e, w)).
Proof.
  destruct docs as [| doc docs].
  - assert (Hworld : snd (append_to_index env [] w) = w).
    { unfold append_to_index. simpl. apply load_vectordb_world. }
    split.
    + intros e w' Hrun. now rewrite Hrun in Hworld.
    + intros msg Hindex.
      destruct (append_to_index env [] w) as [[v | e] w'] eqn:Hrun;
        simpl in Hworld; subst w'; [| eauto].
      unfold append_to_index in Hrun. simpl in Hrun. unfold load_vectordb in Hrun.
      rewrite try_reraise in Hrun.
      unfold bind, embedder, lift, FAISS_load_local in Hrun.
      rewrite Hindex in Hrun.
      destruct (SentenceTransformerEmbeddings env _); discriminate Hrun.
  - destruct (append_to_index_cases env doc docs w)
      as [(v & Hv & _ & Hbuilt) | (e & He)].
    + split.
      * intros e w' Hrun. rewrite Hrun in Hv. discriminate Hv.
      * intros msg Hindex. rewrite Hindex in Hbuilt. destruct Hbuilt.
    + split.
      * intros e' w' Hrun. rewrite Hrun in He. now injection He.
      * eauto.
Qed.

(** ** The model server *)

Lemma load_llm_fst (env : Env) (system_prompt : option string) (w : World) :
  fst (load_llm env system_prompt w) =
  match fst (probe_models env w) with
  | Ok _ =>
      Ok {| llm_model_name := model_name MODEL_SETTINGS;
            llm_max_tokens := max_tokens MODEL_SETTINGS;
            openai_api_key := api_key (LOCAL_LLM_SETTINGS env);
            openai_api_base := base_url (LOCAL_LLM_SETTINGS env);
            llm_model := model (LOCAL_LLM_SETTINGS env);
            streaming := false;
            request_timeout := 300;
            max_retries := 5 |}
  | Raise e => Raise e
  end.
Proof.
  unfold load_llm. rewrite try_reraise. unfold bind, ret.
  destruct (probe_models env w) as [[[] | e] w1]; reflexivity.
Qed.

(** X8.  [load_llm] asks the models endpoint once and changes nothing
    else.  It returns a client exactly when the reply has status 200 and
    a JSON body from which the ids can be collected, the configured model
    among them.  Reply by reply: a request that fails, a status other
    than 200 (whatever the body), a body that is not JSON and a list of
    ids without the model each end in the [ConnectionError] that says so;
    JSON of another shape ends in the error of the list comprehension,
    raised as it is: [AttributeError] for the body [[]] or the entry
    ["x"], [TypeError] for [{"data": null}], while [{}] lists no model.
    The client points at the configured base URL and model, without
    streaming, with a timeout of 300 and 5 retries; the system prompt
    passed in has no effect. *)
Theorem load_llm_outcome (env : Env) (system_prompt : option string) (w : World) :
  snd (load_llm env system_prompt w) = after_probe env w /\
  ((exists llm, fst (load_llm env system_prompt w) = Ok llm) <->
   (exists models_data ids,
      models_endpoint env = Response 200 (BodyJson models_data) /\
      model_ids models_data = Ok ids /\
      str_in_values (model (LOCAL_LLM_SETTINGS env)) ids = true)) /\
  (forall msg,
     models_endpoint env = RequestException msg ->
     fst (load_llm env system_prompt w)
       = Raise (ConnectionError ("Failed to connect to local LLM server: " +:+ msg))) /\
  (forall status_code body,
     models_endpoint env = Response status_code body -> status_code <> 200 ->
     fst (load_llm env system_prompt w)
       = Raise (ConnectionError ("Server returned status code " +:+ pretty status_code))) /\
  (forall is_request_exception msg,
     models_endpoint env = Response 200 (BodyNotJson is_request_exception msg) ->
     fst (load_llm env system_prompt w)
       = Raise (ConnectionError
                  ((if is_request_exception
                    then "Failed to connect to local LLM server: "
                    else "Invalid server response format: ") +:+ msg))) /\
  (forall models_data ids,
     models_endpoint env = Response 200 (BodyJson models_data) ->
     model_ids models_data = Ok ids ->
     str_in_values (model (LOCAL_LLM_SETTINGS env)) ids = false ->
     fst (load_llm env system_prompt w)
       = Raise (ConnectionError
                  ("Model " +:+ model (LOCAL_LLM_SETTINGS env) +:+
                   " not found in available models: " +:+ repr_models env ids))) /\
  (forall models_data e,
     models_endpoint env = Response 200 (BodyJson models_data) ->
     model_ids models_data = Raise e ->
     fst (load_llm env system_prompt w) = Raise e) /\
  (model_ids (JArray [])
     = Raise (AttributeError "'list' object has no attribute 'get'") /\
   model_ids (JObject [("data", JNull)])
     = Raise (TypeError "'NoneType' object is not iterable") /\
   model_ids (JObject [("data", JArray [JString "x"])])
     = Raise (AttributeError "'str' object has no attribute 'get'") /\
   model_ids (JObject []) = Ok [] /\
   model_ids (JObject [("data", JArray [JObject [("id", JString "a")]; JObject []])])
     = Ok [JString "a"; JNull]) /\
  (forall llm, fst (load_llm env system_prompt w) = Ok llm ->
     openai_api_base llm = base_url (LOCAL_LLM_SETTINGS env) /\
     llm_model llm = model (LOCAL_LLM_SETTINGS env) /\
     streaming llm = false /\ request_timeout llm = 300 /\ max_retries llm = 5) /\
  (forall other_prompt, load_llm env other_prompt w = load_llm env system_prompt w).
Proof.
  split; [apply load_llm_run |].
  rewrite load_llm_fst, probe_models_result.
  split.
  { split.
    - intros [llm Hllm].
      destruct (models_endpoint env) as [msg | status_code body];
        [discriminate Hllm |].
      destruct (Nat.eqb_spec status_code 200) as [-> | Hcode];
        [| discriminate Hllm].
      destruct body as [[|] msg | models_data]; [discriminate Hllm .. |].
      destruct (model_ids models_data) as [ids | e] eqn:Hids; [| discriminate Hllm].
      destruct (str_in_values _ ids) eqn:Hin; [| discriminate Hllm].
      now exists models_data, ids.
    - intros (models_data & ids & -> & Hids & Hin). simpl.
      rewrite Hids, Hin. eauto. }
  split; [intros msg ->; reflexivity |].
  split.
  { intros status_code body -> Hcode.
    destruct (Nat.eqb_spec status_code 200); [contradiction | reflexivity]. }
  split; [intros [|] msg ->; reflexivity |].
  split; [intros models_data ids -> Hids Hin; simpl; now rewrite Hids, Hin |].
  split; [intros models_data e -> Hids; simpl; now rewrite Hids |].
  split; [repeat split |].
  split.
  { intros llm Hllm.
    destruct (match models_endpoint env with
              | RequestException _ => _
              | Response _ _ => _
              end) as [[] | e]; [| discriminate Hllm].
    injection Hllm as <-. repeat split. }
  intros other_prompt. reflexivity.
Qed.

(** ** Story generation, direct mode *)

Lemma probe_ok_load_llm (env : Env) (system_prompt : option string) (w : World) :
  fst (probe_models env w) = Ok tt ->
  exists llm, load_llm env system_prompt w = (Ok llm, after_probe env w).
Proof.
  intros Hprobe.
  destruct (load_llm_run env system_prompt w) as (Hworld & _ & Hok).
  destruct (Hok Hprobe) as [llm Hllm]. exists llm.
  destruct (load_llm env system_prompt w) as [r w1]. simpl in *. now subst.
Qed.





(** In direct mode the call is: load the client, then the guarded
    generation; the selection does not occur in it. *)
Lemma direct_mode_body (env : Env)
    (user_input selected_style custom_prompt mode system_prompt : string)
    (selected : list string) (w : World) :
  choose_system_prompt selected_style custom_prompt = Ok system_prompt ->
  normalize_mode mode = "direct generation" ->
  generate_story env user_input selected_style custom_prompt mode selected w
    = (llm <- load_llm env (Some system_prompt) ;;
       try_except
         (story <- invoke env llm [("system", system_prompt); ("user", user_input)] ;;
          add_story env user_input story system_prompt selected_style
                    "direct generation" false ;;;
          store_story_to_memory env story (now_isoformat env) ;;;
          ret (story, NoSources, now_isoformat env))
         (fun e => raise (ValueError ("Failed to generate story: " +:+ str e)))) w.
Proof.
  intros Hsp Hmode. unfold generate_story. rewrite try_reraise.
  unfold bind at 1. unfold lift at 1. rewrite Hsp.
  destruct (load_llm env (Some system_prompt) w) as [[llm | e] w1] eqn:Hllm.
  - rewrite !(bind_ok _ _ _ _ _ Hllm). rewrite Hmode. reflexivity.
  - rewrite !(bind_raise _ _ _ _ _ Hllm). reflexivity.
Qed.

(** X11.  In direct mode the list of selected documents plays no part:
    the call does what it does with the empty list, and whatever the
    outcome the fingerprint file and the index are left as they were. *)
Theorem direct_mode_ignores_documents (env : Env)
    (user_input selected_style custom_prompt mode : string)
    (selected : list string) (w : World) :
  normalize_mode mode = "direct generation" ->
  generate_story env user_input selected_style custom_prompt mode selected w
    = generate_story env user_input selected_style custom_prompt mode [] w /\
  hash_index_json
    (snd (generate_story env user_input selected_style custom_prompt mode selected w))
    = hash_index_json w /\
  faiss_index
    (snd (generate_story env user_input selected_style custom_prompt mode selected w))
    = faiss_index w.
Proof.
  intros Hmode.
  destruct (choose_system_prompt_ok selected_style custom_prompt) as [sp Hsp].
  rewrite !(direct_mode_body _ _ _ _ _ sp _ _ Hsp Hmode).
  split; [reflexivity |].
  destruct (load_llm_run env (Some sp) w) as (Hworld & _ & _).
  destruct (load_llm env (Some sp) w) as [[llm | e] w1] eqn:Hllm;
    simpl in Hworld; subst w1;
    [rewrite !(bind_ok _ _ _ _ _ Hllm)
    | rewrite !(bind_raise _ _ _ _ _ Hllm); split; reflexivity].
  unfold try_except, invoke, bind, emit, lift, add_story, store_story_to_memory,
    try_except, bind, lift, write_text, ret, raise.
  simpl.
  destruct (chat_endpoint env _); simpl; [| split; reflexivity].
  destruct (open_w env _); simpl; split; reflexivity.
Qed.

Lemma direct_mode_ignores_documents_witness :
  generate_story Demo.env "A scene" "One Piece Writer" "Be brief." "DIRECT GENERATION"
                 ["a.txt"; "b.txt"] Demo.indexed
    = generate_story Demo.env "A scene" "One Piece Writer" "Be brief." "DIRECT GENERATION"
                     [] Demo.indexed.
Proof.
  apply (direct_mode_ignores_documents Demo.env "A scene" "One Piece Writer"
           "Be brief." "DIRECT GENERATION" ["a.txt"; "b.txt"] Demo.indexed).
  reflexivity.
Defined.

(** ** Story generation, retrieval mode *)

(** X12.  Once the loader has run over the documents directory with some
    selection and returned, a retrieval-mode call with that selection on
    the fingerprints it left finds nothing to load: after the probe and
    the rewrite of the fingerprint file it raises "No documents available
    for RAG mode".  The model is not asked and the index is not read. *)
Theorem repeated_retrieval_finds_no_documents (env : Env)
    (user_input selected_style custom_prompt mode : string)
    (selected : list string) (w0 w1 w : World) (docs : list Document) :
  Py.isascii mode = true ->
  normalize_mode mode <> "direct generation" ->
  selected <> [] ->
  fst (probe_models env w) = Ok tt ->
  NoDup (rel_paths env DOCS_PATH (os_walk env DOCS_PATH)) ->
  load_documents env DOCS_PATH (Some selected) w0 = (Ok docs, w1) ->
  hash_index_json w = hash_index_json w1 ->
  generate_story env user_input selected_style custom_prompt mode selected w
    = (Raise (ValueError "No documents available for RAG mode"),
       {| hash_index_json := hash_index_json w;
          faiss_index := faiss_index w;
          written_files := written_files w;
          stories := stories w;
          trace := trace w ++
                   [HttpGet (base_url (LOCAL_LLM_SETTINGS env) +:+ "/models");
                    DiskWrite HASH_DB_PATH] |}).
Proof.
  intros _ Hmode Hselected Hprobe Hnodup Hfirst Hsame.
  destruct (choose_system_prompt_ok selected_style custom_prompt) as [sp Hsp].
  destruct (probe_ok_load_llm env (Some sp) w Hprobe) as [llm Hllm].
  unfold load_documents in Hfirst.
  destruct (run_settles _ _ _ _ _ _ _ Hnodup Hfirst) as (merged & Hfile & Hopen & Hs).
  assert (Hload : load_hash_db (after_probe env w) = (Ok merged, after_probe env w)).
  { unfold load_hash_db. simpl. now rewrite Hsame, Hfile. }
  pose proof (settled_run _ _ _ _ _ _ Hs Hload Hopen) as Hsecond.
  unfold generate_story. rewrite try_reraise.
  unfold bind at 1. unfold lift at 1. rewrite Hsp.
  rewrite (bind_ok _ _ _ _ _ Hllm).
  destruct (String.eqb_spec (normalize_mode mode) "direct generation");
    [contradiction |].
  destruct selected as [| name selected]; [contradiction |]. simpl.
  unfold load_documents. rewrite (bind_ok _ _ _ _ _ Hsecond). simpl.
  unfold raise. rewrite <- app_assoc. simpl.
  now rewrite Hsame, Hfile.
Qed.

Lemma repeated_retrieval_finds_no_documents_witness :
  map source
      (match fst (load_documents Demo.env DOCS_PATH (Some ["a.txt"]) Demo.fresh) with
       | Ok docs => docs
       | Raise _ => []
       end) = ["./docs/a.txt"] /\
  fst (generate_story Demo.env "A scene" "One Piece Writer" EmptyString
                      "RAG with Documents" ["a.txt"]
                      (snd (load_documents Demo.env DOCS_PATH (Some ["a.txt"]) Demo.fresh)))
    = Raise (ValueError "No documents available for RAG mode").
Proof.
  split; [vm_compute; reflexivity |].
  rewrite (repeated_retrieval_finds_no_documents Demo.env "A scene" "One Piece Writer"
             EmptyString "RAG with Documents" ["a.txt"] Demo.fresh
             (snd (load_documents Demo.env DOCS_PATH (Some ["a.txt"]) Demo.fresh))
             (snd (load_documents Demo.env DOCS_PATH (Some ["a.txt"]) Demo.fresh))
             [Demo.a_doc]).
  - reflexivity.
  - reflexivity.
  - vm_compute. discriminate.
  - discriminate.
  - reflexivity.
  - exact demo_paths_distinct.
  - vm_compute. reflexivity.
  - reflexivity.
Defined.

(** ** Stories on disk, beyond the one file *)

(** X13.  When the story file cannot be opened for writing,
    [store_story_to_memory] raises the error of [open] and changes
    nothing.  When it can, the write touches that one path only: every
    other stored file, the fingerprints, the index and the database are
    as before. *)
Theorem store_story_touches_one_file (env : Env) (story_text timestamp : string)
    (w : World) :
  (forall e,
     open_w env (Py.os_path_join MEMORY_STORIES_PATH (story_filename timestamp)) = Raise e ->
     store_story_to_memory env story_text timestamp w = (Raise e, w)) /\
  (forall other,
     other <> Py.os_path_join MEMORY_STORIES_PATH (story_filename timestamp) ->
     written_files (snd (store_story_to_memory env story_text timestamp w)) !! other
       = written_files w !! other) /\
  hash_index_json (snd (store_story_to_memory env story_text timestamp w))
    = hash_index_json w /\
  faiss_index (snd (store_story_to_memory env story_text timestamp w)) = faiss_index w /\
  stories (snd (store_story_to_memory env story_text timestamp w)) = stories w.
Proof.
  unfold store_story_to_memory. rewrite try_reraise.
  unfold bind, lift, write_text, ret.
  destruct (open_w env _) as [[] | e]; simpl.
  - split; [intros e H; discriminate H |].
    split; [| repeat split].
    intros other Hother. now rewrite lookup_insert_ne.
  - split; [now intros e' [= <-] |]. repeat split.
Qed.

Lemma story_filename_chars (timestamp : string) (i : nat) (c : ascii) :
  String.get i (story_filename timestamp) = Some c ->
  c <> ":"%char /\ c <> "T"%char.
Proof.
  unfold story_filename.
  assert (Hbody : forall s j, String.get j (Py.replace "T" "_" (Py.replace ":" "-" s) +:+ ".txt")
                              = Some c -> c <> ":"%char /\ c <> "T"%char).
  { induction s as [| x s IH]; intros j.
    - simpl. do 4 (destruct j as [| j]; [intros [= <-]; split; discriminate |]).
      discriminate.
    - change (Py.replace "T" "_" (Py.replace ":" "-" (String x s)) +:+ ".txt")
        with (String (if Ascii.eqb (if Ascii.eqb x ":" then "-"%char else x) "T"
                      then "_"%char else (if Ascii.eqb x ":" then "-"%char else x))
                     (Py.replace "T" "_" (Py.replace ":" "-" s) +:+ ".txt")).
      destruct j as [| j]; [| apply IH].
      simpl. intros [= <-].
      destruct (Ascii.eqb_spec x ":") as [-> | Hcolon]; [split; discriminate |].
      destruct (Ascii.eqb_spec x "T") as [-> | HT]; [split; discriminate |].
      split; assumption. }
  do 6 (destruct i as [| i]; [intros [= <-]; split; discriminate |]).
  apply Hbody.
Qed.

Lemma length_append (s t : string) :
  String.length (s +:+ t) = String.length s + String.length t.
Proof.
  induction s as [| c s IH]; [reflexivity |].
  change (String c s +:+ t) with (String c (s +:+ t)). simpl. now rewrite IH.
Qed.

Lemma substring_whole (s : string) : substring 0 (String.length s) s = s.
Proof. induction s as [| c s IH]; simpl; [reflexivity | now rewrite IH]. Qed.

Lemma substring_after (s suffix : string) :
  substring (String.length s) (String.length suffix) (s +:+ suffix) = suffix.
Proof.
  induction s as [| c s IH]; [apply substring_whole |].
  change (String c s +:+ suffix) with (String c (s +:+ suffix)). simpl. exact IH.
Qed.

Lemma endswith_append (s suffix : string) : Py.endswith (s +:+ suffix) suffix = true.
Proof.
  unfold Py.endswith. rewrite length_append.
  replace (String.length suffix <=? String.length s + String.length suffix)%nat
    with true by (symmetry; apply Nat.leb_le; lia).
  replace (String.length s + String.length suffix - String.length suffix)
    with (String.length s) by lia.
  rewrite substring_after. simpl. apply String.eqb_refl.
Qed.

(** X14.  The name of a story file holds no [:] and no [T], whatever the
    timestamp it is made from; it starts with [story_], is ten characters
    longer than the timestamp and ends with [.txt], so that the loader
    takes a stored story for a document. *)
Theorem story_filename_is_sanitized (timestamp : string) :
  (forall i c, String.get i (story_filename timestamp) = Some c ->
               c <> ":"%char /\ c <> "T"%char) /\
  Py.startswith (story_filename timestamp) "story_" = true /\
  String.length (story_filename timestamp) = 10 + String.length timestamp /\
  Py.endswith_any (story_filename timestamp) SUPPORTED_SUFFIXES = true.
Proof.
  split; [apply story_filename_chars |].
  split; [apply prefix_app |].
  split.
  - unfold story_filename. rewrite !length_append, !replace_length. simpl. lia.
  - unfold story_filename, Py.endswith_any, SUPPORTED_SUFFIXES.
    rewrite <- append_assoc. cbn [existsb]. now rewrite endswith_append.
Qed.

Lemma store_story_ok (env : Env) (story_text timestamp : string) (w : World) :
  open_w env (Py.os_path_join MEMORY_STORIES_PATH (story_filename timestamp)) = Ok tt ->
  store_story_to_memory env story_text timestamp w
    = (Ok (Py.os_path_join MEMORY_STORIES_PATH (story_filename timestamp)),
       {| hash_index_json := hash_index_json w;
          faiss_index := faiss_index w;
          written_files :=
            <[Py.os_path_join MEMORY_STORIES_PATH (story_filename timestamp)
              := story_file_content story_text timestamp]> (written_files w);
          stories := stories w;
          trace := trace w ++
                   [DiskWrite (Py.os_path_join MEMORY_STORIES_PATH
                                               (story_filename timestamp))] |}).
Proof.
  intros Hopen. unfold store_story_to_memory. rewrite try_reraise.
  unfold bind, lift, write_text, ret. now rewrite Hopen.
Qed.



(** ** The database read back *)

Lemma insert_desc_permutation (r : StoryRow) (rows : list StoryRow) :
  Permutation (insert_desc r rows) (r :: rows).
Proof.
  induction rows as [| x rows IH]; simpl; [reflexivity |].
  destruct (String.leb (row_created_at x) (row_created_at r)); [reflexivity |].
  rewrite IH. apply perm_swap.
Qed.

Lemma select_stories_desc_permutation (rows : list StoryRow) :
  Permutation (select_stories_desc rows) rows.
Proof.
  induction rows as [| r rows IH]; simpl; [reflexivity |].
  rewrite insert_desc_permutation. now apply perm_skip.
Qed.

Lemma insert_desc_sorted (r : StoryRow) (rows : list StoryRow) :
  Sorted (fun a b => String.leb (row_created_at b) (row_created_at a) = true) rows ->
  Sorted (fun a b => String.leb (row_created_at b) (row_created_at a) = true)
         (insert_desc r rows).
Proof.
  induction rows as [| x rows IH]; intros Hsorted; simpl.
  - repeat constructor.
  - destruct (String.leb (row_created_at x) (row_created_at r)) eqn:Hle.
    + constructor; [exact Hsorted | constructor; exact Hle].
    + apply Sorted_inv in Hsorted as [Hrest Hhead].
      constructor; [apply IH; exact Hrest |].
      destruct rows as [| y rows]; simpl.
      * constructor. destruct (String.leb_total (row_created_at r) (row_created_at x))
          as [H | H]; [exact H | congruence].
      * destruct (String.leb (row_created_at y) (row_created_at r)).
        -- constructor.
           destruct (String.leb_total (row_created_at r) (row_created_at x))
             as [H | H]; [exact H | congruence].
        -- constructor. now apply HdRel_inv in Hhead.
Qed.

(** X16.  The "csv" export is the table itself, rearranged: every row is
    there once, and no row comes before one created later.  The "json"
    export is the same rows in the same order, each with its memory flag
    turned into a boolean that is true exactly for a non-zero column.
    Either export runs the one SELECT and leaves the rest as it was. *)
Theorem export_is_newest_first (w : World) :
  exists rows : list StoryRow,
    export_all_stories "csv" w = (Ok (ExportedCsv rows), after_select w) /\
    export_all_stories "json" w
      = (Ok (ExportedJson (map story_dict rows)), after_select w) /\
    Permutation rows (stories w) /\
    Sorted (fun a b => String.leb (row_created_at b) (row_created_at a) = true) rows /\
    (forall r, d_memory_added (story_dict r) = true <-> row_memory_added r <> 0).
Proof.
  exists (select_stories_desc (stories w)).
  split; [reflexivity |]. split; [reflexivity |].
  split; [apply select_stories_desc_permutation |]. split.
  - induction (stories w) as [| r rows IH]; simpl; [constructor |].
    now apply insert_desc_sorted.
  - intros r. unfold story_dict. simpl.
    destruct (Nat.eqb_spec (row_memory_added r) 0) as [-> | Hflag]; simpl.
    + split; [discriminate | congruence].
    + split; [intros _; exact Hflag | reflexivity].
Qed.

Lemma sqlite_int_ok (n : Z) :
  (- 2 ^ 63 <= n < 2 ^ 63)%Z -> sqlite_int n = Ok n.
Proof.
  intros [Hlow Hhigh]. unfold sqlite_int.
  apply Z.leb_le in Hlow. apply Z.ltb_lt in Hhigh. now rewrite Hlow, Hhigh.
Qed.

(** A page whose two integers fit into 64 bits is that window of the
    rows, newest first. *)
Lemma get_all_stories_ok (limit offset : Z) (w : World) :
  (- 2 ^ 63 <= limit < 2 ^ 63)%Z -> (- 2 ^ 63 <= offset < 2 ^ 63)%Z ->
  get_all_stories limit offset w
    = (Ok (limit_offset limit offset (select_stories_desc (stories w))),
       after_select w).
Proof.
  intros Hlimit Hoffset. unfold get_all_stories, bind, lift.
  now rewrite !sqlite_int_ok.
Qed.

(** X17.  Pages of [get_all_stories] fit together: for sizes and an
    offset that are not negative, a page followed by the page that starts
    where it ends is the one page of both sizes, and no page is longer
    than its size.  Each call runs one SELECT and changes nothing else. *)
Theorem pages_compose (limit1 limit2 offset : Z) (w : World) :
  (0 <= offset)%Z -> (0 <= limit1)%Z -> (0 <= limit2)%Z ->
  (offset + limit1 + limit2 < 2 ^ 63)%Z ->
  exists page1 page2 both : list StoryRow,
    get_all_stories limit1 offset w = (Ok page1, after_select w) /\
    get_all_stories limit2 (offset + limit1) w = (Ok page2, after_select w) /\
    get_all_stories (limit1 + limit2) offset w = (Ok both, after_select w) /\
    page1 ++ page2 = both /\
    length page1 <= Z.to_nat limit1.
Proof.
  intros Ho H1 H2 Hmax.
  rewrite !get_all_stories_ok by lia.
  unfold limit_offset.
  replace (limit1 <? 0)%Z with false by (symmetry; apply Z.ltb_ge; lia).
  replace (limit2 <? 0)%Z with false by (symmetry; apply Z.ltb_ge; lia).
  replace (limit1 + limit2 <? 0)%Z with false by (symmetry; apply Z.ltb_ge; lia).
  eexists _, _, _. split; [reflexivity |]. split; [reflexivity |].
  split; [reflexivity |]. split.
  - rewrite !Z2Nat.inj_add by lia. rewrite <- drop_drop. apply take_take_drop.
  - rewrite length_take. lia.
Qed.

Lemma pages_compose_witness :
  map row_id (stories Demo.archive) = [1; 2; 3] /\
  (exists page1 page2 both : list StoryRow,
     get_all_stories 1 1 Demo.archive = (Ok page1, after_select Demo.archive) /\
     get_all_stories 1 (1 + 1) Demo.archive = (Ok page2, after_select Demo.archive) /\
     get_all_stories (1 + 1) 1 Demo.archive = (Ok both, after_select Demo.archive) /\
     page1 ++ page2 = both /\
     length page1 <= Z.to_nat 1) /\
  fst (get_all_stories 1 1 Demo.archive)
    = Ok [Demo.story 3 "2024-01-02 19:45:00" "The third."] /\
  fst (get_all_stories 1 (1 + 1) Demo.archive)
    = Ok [Demo.story 1 "2024-01-01 12:00:00" "The first."] /\
  fst (get_all_stories (1 + 1) 1 Demo.archive)
    = Ok [Demo.story 3 "2024-01-02 19:45:00" "The third.";
          Demo.story 1 "2024-01-01 12:00:00" "The first."].
Proof.
  split; [reflexivity |].
  split; [apply (pages_compose 1 1 1 Demo.archive); lia |].
  repeat split.
Defined.

(** X18.  [get_all_stories] with no real bound reads the whole table:
    with an offset that is not positive, and a limit that is negative or
    at least the number of rows, it returns what the "csv" export
    returns; outside the 64-bit range either argument makes it raise,
    before any statement is run. *)
Theorem unbounded_page_is_the_export (limit offset : Z) (w : World) :
  (- 2 ^ 63 <= offset <= 0)%Z ->
  (- 2 ^ 63 <= limit < 2 ^ 63)%Z ->
  (limit < 0 \/ Z.of_nat (length (stories w)) <= limit)%Z ->
  (exists rows,
     get_all_stories limit offset w = (Ok rows, after_select w) /\
     export_all_stories "csv" w = (Ok (ExportedCsv rows), after_select w)) /\
  (forall n, (2 ^ 63 <= n)%Z ->
     exists e, get_all_stories n offset w = (Raise e, w) /\
               get_all_stories limit n w = (Raise e, w)).
Proof.
  intros Ho Hl Hall. split.
  - exists (select_stories_desc (stories w)). split; [| reflexivity].
    rewrite get_all_stories_ok by lia. f_equal. f_equal.
    unfold limit_offset.
    replace (Z.to_nat offset) with 0 by lia. rewrite drop_0.
    destruct (Z.ltb_spec limit 0) as [Hneg | Hpos]; [reflexivity |].
    rewrite take_ge; [reflexivity |].
    rewrite (Permutation_length (select_stories_desc_permutation (stories w))). lia.
  - intros n Hn. unfold get_all_stories, bind, lift, sqlite_int.
    replace (n <? 2 ^ 63)%Z with false by (symmetry; apply Z.ltb_ge; lia).
    rewrite andb_false_r. simpl.
    destruct ((- 2 ^ 63 <=? limit) && (limit <? 2 ^ 63))%Z; simpl; eauto.
Qed.

Lemma unbounded_page_is_the_export_witness :
  (exists rows,
     get_all_stories (-1) 0 Demo.archive = (Ok rows, after_select Demo.archive) /\
     export_all_stories "csv" Demo.archive
       = (Ok (ExportedCsv rows), after_select Demo.archive)) /\
  fst (get_all_stories (-1) 0 Demo.archive)
    = Ok [Demo.story 2 "2024-01-03 08:30:00" "The second.";
          Demo.story 3 "2024-01-02 19:45:00" "The third.";
          Demo.story 1 "2024-01-01 12:00:00" "The first."] /\
  fst (get_all_stories 3 0 Demo.archive) = fst (get_all_stories (-1) 0 Demo.archive) /\
  fst (get_all_stories 2 0 Demo.archive)
    = Ok [Demo.story 2 "2024-01-03 08:30:00" "The second.";
          Demo.story 3 "2024-01-02 19:45:00" "The third."].
Proof.
  split; [| repeat split].
  apply (unbounded_page_is_the_export (-1) 0 Demo.archive); simpl; lia.
Defined.

(** ** The memory step and the system prompt *)

Lemma append_to_index_frame (env : Env) (docs : list Document) (w : World) :
  hash_index_json (snd (append_to_index env docs w)) = hash_index_json w /\
  written_files (snd (append_to_index env docs w)) = written_files w /\
  stories (snd (append_to_index env docs w)) = stories w.
Proof.
  destruct docs as [| doc docs].
  - unfold append_to_index. simpl. rewrite load_vectordb_world. repeat split.
  - destruct (append_to_index_cases env doc docs w) as [(v & Hv & _) | (e & He)].
    + rewrite Hv. repeat split.
    + rewrite He. repeat split.
Qed.

(** X19.  The "add to long-term memory" step never touches the database
    or the fingerprints, so the memory flag of the story's row stays as
    [add_story] set it; a story whose file is already there, as after
    [generate_story], is written again with the same content and no file
    changes.  When the step returns, the index it returns is the persisted
    one and the writes were the story file, then the index. *)
Theorem memory_step_leaves_database (env : Env) (answer now : string) (w : World) :
  stories (snd (add_to_memory env answer now w)) = stories w /\
  hash_index_json (snd (add_to_memory env answer now w)) = hash_index_json w /\
  (written_files w !! Py.os_path_join MEMORY_STORIES_PATH (story_filename now)
     = Some (story_file_content answer now) ->
   written_files (snd (add_to_memory env answer now w)) = written_files w) /\
  (forall vectordb w',
     add_to_memory env answer now w = (Ok vectordb, w') ->
     faiss_index w' = IndexSaved vectordb /\
     written_files w' !! Py.os_path_join MEMORY_STORIES_PATH (story_filename now)
       = Some (story_file_content answer now) /\
     trace w' = trace w ++
                [DiskWrite (Py.os_path_join MEMORY_STORIES_PATH (story_filename now));
                 DiskWrite INDEX_PATH]).
Proof.
  unfold add_to_memory, bind.
  destruct (open_w env (Py.os_path_join MEMORY_STORIES_PATH (story_filename now)))
    as [[] | e] eqn:Hopen.
  - rewrite (store_story_ok env answer now w Hopen).
    set (w1 := {| hash_index_json := hash_index_json w;
                  faiss_index := faiss_index w;
                  written_files := _;
                  stories := stories w;
                  trace := _ |}).
    set (doc := {| page_content := answer; source := _ |}).
    destruct (append_to_index_frame env [doc] w1) as (Hhash & Hfiles & Hstories).
    split; [exact Hstories |]. split; [exact Hhash |]. split.
    + intros Hthere. rewrite Hfiles. simpl. now apply insert_id.
    + intros vectordb w' Hrun.
      destruct (append_to_index_cases env doc [] w1) as [(v & Hv & _) | (e & He)];
        rewrite Hrun in *; [| discriminate He].
      injection Hv as -> ->. simpl.
      split; [reflexivity |]. split; [apply lookup_insert_eq |].
      now rewrite <- app_assoc.
  - assert (Hstore : store_story_to_memory env answer now w = (Raise e, w)).
    { unfold store_story_to_memory. rewrite try_reraise.
      unfold bind, lift. now rewrite Hopen. }
    rewrite Hstore. simpl. split; [reflexivity |]. split; [reflexivity |].
    split; [reflexivity |]. intros vectordb w' H. discriminate H.
Qed.

(** X20.  A story generated in direct mode and then added to memory has
    gone to the index as one document, its text with its file as source:
    the index persisted is what FAISS made of the chunks of that document,
    from nothing when there was no index, on top of the persisted chunks
    otherwise.  Yet the row of the story still has the memory flag off,
    and its file is the one generation wrote. *)
Theorem remembered_story_keeps_flag_off (env : Env)
    (user_input selected_style custom_prompt mode system_prompt story : string)
    (selected : list string) (w w1 w2 : World) (vectordb : FAISS) :
  choose_system_prompt selected_style custom_prompt = Ok system_prompt ->
  normalize_mode mode = "direct generation" ->
  generate_story env user_input selected_style custom_prompt mode selected w
    = (Ok (story, NoSources, now_isoformat env), w1) ->
  add_to_memory env story (now_isoformat env) w1 = (Ok vectordb, w2) ->
  faiss_index w2 = IndexSaved vectordb /\
  match faiss_index w with
  | IndexMissing =>
      FAISS_from_documents env
        (split_documents env (chunk_size VECTOR_STORE_SETTINGS)
           (chunk_overlap VECTOR_STORE_SETTINGS)
           [{| page_content := story;
               source := Py.os_path_join MEMORY_STORIES_PATH
                           (story_filename (now_isoformat env)) |}])
        = Ok vectordb
  | IndexCorrupt _ => False
  | IndexSaved loaded =>
      FAISS_add_documents env loaded
        (split_documents env (chunk_size VECTOR_STORE_SETTINGS)
           (chunk_overlap VECTOR_STORE_SETTINGS)
           [{| page_content := story;
               source := Py.os_path_join MEMORY_STORIES_PATH
                           (story_filename (now_isoformat env)) |}])
        = Ok vectordb
  end /\
  written_files w2 = written_files w1 /\
  written_files w2 !! Py.os_path_join MEMORY_STORIES_PATH
                        (story_filename (now_isoformat env))
    = Some (story_file_content story (now_isoformat env)) /\
  stories w2 = stories w1 /\
  exists earlier row,
    stories w2 = earlier ++ [row] /\
    row_response row = story /\ row_memory_added row = 0.
Proof.
  intros Hsp Hmode Hgen Hstep.
  rewrite (direct_mode_body _ _ _ _ _ system_prompt _ _ Hsp Hmode) in Hgen.
  apply bind_inv in Hgen as (llm & wp & Hllm & Hgen).
  pose proof (proj1 (load_llm_run env (Some system_prompt) w)) as Hwp.
  rewrite Hllm in Hwp. simpl in Hwp. subst wp.
  unfold try_except, invoke, bind, emit, lift, add_story, store_story_to_memory,
    try_except, bind, lift, write_text, ret, raise in Hgen.
  simpl in Hgen.
  destruct (chat_endpoint env _) as [text | e]; simpl in Hgen; [| discriminate Hgen].
  destruct (open_w env _) as [[] | e] eqn:Hopen; simpl in Hgen; [| discriminate Hgen].
  injection Hgen as -> <-.
  assert (Hstep' := Hstep). unfold add_to_memory in Hstep'.
  apply bind_inv in Hstep' as (path & w' & Hstore & Happend).
  rewrite (store_story_ok env _ _ _ Hopen) in Hstore. injection Hstore as <- <-.
  match type of Happend with
  | append_to_index _ [?doc] ?wx = _ =>
      destruct (append_to_index_cases env doc [] wx) as [(v & Hv & _ & Hbuilt) | (e & He)]
  end;
    rewrite Happend in *; [| discriminate He].
  injection Hv as -> Hw2. subst w2. simpl in *.
  split; [reflexivity |]. split; [exact Hbuilt |].
  split; [apply insert_insert_eq |]. split; [apply lookup_insert_eq |].
  split; [reflexivity |]. eexists _, _. split; [reflexivity |]. split; reflexivity.
Qed.

Lemma remembered_story_keeps_flag_off_witness :
  exists w1 w2 vectordb,
    generate_story Demo.env "A scene" "One Piece Writer" EmptyString
                   "Direct Generation" [] Demo.indexed
      = (Ok ("Once upon a time.", NoSources, "2024-01-01T12:00:00"), w1) /\
    add_to_memory Demo.env "Once upon a time." "2024-01-01T12:00:00" w1
      = (Ok vectordb, w2) /\
    vectordb
      = [Demo.a_doc;
         {| page_content := "Once upon a time.";
            source := "./docs/memory_stories/story_2024-01-01_12-00-00.txt" |}] /\
    faiss_index w2 = IndexSaved vectordb /\
    FAISS_add_documents Demo.env [Demo.a_doc]
      (split_documents Demo.env 500 50
         [{| page_content := "Once upon a time.";
             source := "./docs/memory_stories/story_2024-01-01_12-00-00.txt" |}])
      = Ok vectordb /\
    written_files w2 = written_files w1 /\
    map row_memory_added (stories w2) = [0].
Proof.
  eexists _, _, _.
  split; [vm_compute; reflexivity |]. split; [vm_compute; reflexivity |].
  split; [reflexivity |].
  match goal with
  | |- faiss_index ?w2 = IndexSaved ?v /\ _ /\ written_files ?w2 = written_files ?w1 /\ _ =>
      destruct (remembered_story_keeps_flag_off Demo.env "A scene" "One Piece Writer"
                  EmptyString "Direct Generation" ONE_PIECE_WRITER_PROMPT
                  "Once upon a time." [] Demo.indexed w1 w2 v)
        as (Hindex & Hbuilt & Hfiles & _)
  end.
  - reflexivity.
  - reflexivity.
  - vm_compute. reflexivity.
  - vm_compute. reflexivity.
  - split; [exact Hindex |]. split; [exact Hbuilt |].
    split; [exact Hfiles | reflexivity].
Defined.



(** ** Story generation, when a step fails *)

Lemma probe_models_fst (env : Env) (w1 w2 : World) :
  fst (probe_models env w1) = fst (probe_models env w2).
Proof. now rewrite !probe_models_result. Qed.

(** X22.  In every mode the call starts with the probe, and a failed
    probe ends it: the error of the probe is raised as it is (direct mode
    does not wrap it into its [ValueError]), and but for the one request
    nothing has happened. *)
Theorem failed_probe_ends_the_call (env : Env)
    (user_input selected_style custom_prompt mode : string)
    (selected : list string) (w : World) (e : Exn) :
  fst (probe_models env w) = Raise e ->
  generate_story env user_input selected_style custom_prompt mode selected w
    = (Raise e, after_probe env w).
Proof.
  intros Hprobe.
  destruct (choose_system_prompt_ok selected_style custom_prompt) as [sp Hsp].
  destruct (load_llm_run env (Some sp) w) as (Hworld & Hfail & _).
  specialize (Hfail _ Hprobe).
  unfold generate_story. rewrite try_reraise.
  unfold bind at 1. unfold lift at 1. rewrite Hsp.
  unfold bind at 1.
  destruct (load_llm env (Some sp) w) as [r w1]. simpl in *. now subst.
Qed.

Lemma failed_probe_ends_the_call_witness :
  generate_story Demo.offline "A scene" "One Piece Writer" EmptyString
                 "Direct Generation" [] Demo.fresh
    = (Raise (ConnectionError
                "Failed to connect to local LLM server: connection refused"),
       after_probe Demo.offline Demo.fresh) /\
  generate_story Trouble.null_data "A scene" "One Piece Writer" EmptyString
                 "Direct Generation" [] Demo.fresh
    = (Raise (TypeError "'NoneType' object is not iterable"),
       after_probe Trouble.null_data Demo.fresh) /\
  generate_story Trouble.bare_list "A scene" "One Piece Writer" EmptyString
                 "RAG with Documents" ["a.txt"] Demo.fresh
    = (Raise (AttributeError "'list' object has no attribute 'get'"),
       after_probe Trouble.bare_list Demo.fresh).
Proof.
  split; [| split].
  - apply (failed_probe_ends_the_call Demo.offline "A scene" "One Piece Writer"
             EmptyString "Direct Generation" [] Demo.fresh).
    reflexivity.
  - apply (failed_probe_ends_the_call Trouble.null_data "A scene" "One Piece Writer"
             EmptyString "Direct Generation" [] Demo.fresh).
    reflexivity.
  - apply (failed_probe_ends_the_call Trouble.bare_list "A scene" "One Piece Writer"
             EmptyString "RAG with Documents" ["a.txt"] Demo.fresh).
    reflexivity.
Defined.

(** X23.  In retrieval mode the fingerprints are written before the index
    is.  When the documents load but the index cannot be extended, the
    call raises the error of [append_to_index] as it is; the index is what
    it was, the fingerprints of the loaded files are stored all the same,
    and the same call made again finds no document to load. *)
Theorem failed_indexing_is_not_retried (env : Env)
    (user_input selected_style custom_prompt mode : string)
    (selected : list string) (w w1 w2 : World) (docs : list Document) (e : Exn) :
  Py.isascii mode = true ->
  normalize_mode mode <> "direct generation" ->
  selected <> [] ->
  fst (probe_models env w) = Ok tt ->
  NoDup (rel_paths env DOCS_PATH (os_walk env DOCS_PATH)) ->
  load_documents env DOCS_PATH (Some selected) (after_probe env w) = (Ok docs, w1) ->
  docs <> [] ->
  append_to_index env docs w1 = (Raise e, w2) ->
  generate_story env user_input selected_style custom_prompt mode selected w
    = (Raise e, w1) /\
  faiss_index w1 = faiss_index w /\
  fst (generate_story env user_input selected_style custom_prompt mode selected w1)
    = Raise (ValueError "No documents available for RAG mode").
Proof.
  intros _ Hmode Hselected Hprobe Hnodup Hload Hdocs Happend.
  destruct (choose_system_prompt_ok selected_style custom_prompt) as [sp Hsp].
  assert (Hbody : forall wx wy loaded,
            fst (probe_models env wx) = Ok tt ->
            load_documents env DOCS_PATH (Some selected) (after_probe env wx)
              = (Ok loaded, wy) ->
            generate_story env user_input selected_style custom_prompt mode selected wx
              = match loaded with
                | [] => (Raise (ValueError "No documents available for RAG mode"), wy)
                | _ :: _ =>
                    (vectordb <- append_to_index env loaded ;;
                     result <- run_chain env
                                 {| llm_model_name := model_name MODEL_SETTINGS;
                                    llm_max_tokens := max_tokens MODEL_SETTINGS;
                                    openai_api_key := api_key (LOCAL_LLM_SETTINGS env);
                                    openai_api_base := base_url (LOCAL_LLM_SETTINGS env);
                                    llm_model := model (LOCAL_LLM_SETTINGS env);
                                    streaming := false;
                                    request_timeout := 300;
                                    max_retries := 5 |} vectordb user_input ;;
                     add_story env user_input (fst result) sp selected_style
                               (normalize_mode mode) false ;;;
                     store_story_to_memory env (fst result) (now_isoformat env) ;;;
                     ret (fst result, ChainSources (snd result), now_isoformat env)) wy
                end).
  { intros wx wy loaded Hp Hl.
    unfold generate_story. rewrite try_reraise.
    unfold bind at 1. unfold lift at 1. rewrite Hsp.
    assert (Hllm : load_llm env (Some sp) wx
                   = (Ok {| llm_model_name := model_name MODEL_SETTINGS;
                            llm_max_tokens := max_tokens MODEL_SETTINGS;
                            openai_api_key := api_key (LOCAL_LLM_SETTINGS env);
                            openai_api_base := base_url (LOCAL_LLM_SETTINGS env);
                            llm_model := model (LOCAL_LLM_SETTINGS env);
                            streaming := false;
                            request_timeout := 300;
                            max_retries := 5 |}, after_probe env wx)).
    { pose proof (probe_models_run env wx) as Hw.
      unfold load_llm. rewrite try_reraise. unfold bind, ret.
      destruct (probe_models env wx) as [[[] | e0] wz]; simpl in *;
        [now subst | discriminate Hp]. }
    rewrite (bind_ok _ _ _ _ _ Hllm).
    destruct (String.eqb_spec (normalize_mode mode) "direct generation");
      [contradiction |].
    destruct selected as [| name rest]; [contradiction |]. simpl.
    rewrite (bind_ok _ _ _ _ _ Hl). destruct loaded; reflexivity. }
  assert (Hunchanged : w2 = w1).
  { destruct docs as [| doc rest]; [contradiction |].
    destruct (append_to_index_cases env doc rest w1) as [(v & Hv & _) | (e' & He)];
      rewrite Happend in *; [discriminate Hv | now injection He]. }
  subst w2. split; [| split].
  - rewrite (Hbody w w1 docs Hprobe Hload).
    destruct docs as [| doc rest]; [contradiction |].
    now rewrite (bind_raise _ _ _ _ _ Happend).
  - unfold load_documents in Hload.
    apply load_documents_over_inv in Hload as (old & hashes & _ & _ & Hupd).
    apply update_hash_db_inv_world in Hupd as (old' & _ & _ & ->). reflexivity.
  - unfold load_documents in Hload.
    destruct (run_settles _ _ _ _ _ _ _ Hnodup Hload) as (merged & Hfile & Hopen & Hs).
    assert (Hstore : load_hash_db (after_probe env w1) = (Ok merged, after_probe env w1)).
    { unfold load_hash_db. simpl. now rewrite Hfile. }
    pose proof (settled_run _ _ _ _ _ _ Hs Hstore Hopen) as Hsecond.
    rewrite (Hbody w1 _ [] (eq_trans (probe_models_fst env w1 w) Hprobe) Hsecond).
    reflexivity.
Qed.

Lemma failed_indexing_is_not_retried_witness :
  exists w1,
    generate_story Trouble.no_embedder "A scene" "One Piece Writer" EmptyString
                   "RAG with Documents" ["a.txt"] Demo.fresh
      = (Raise (LibraryError "No sentence-transformers model found: all-MiniLM-L6-v2"), w1) /\
    faiss_index w1 = IndexMissing /\
    fst (generate_story Trouble.no_embedder "A scene" "One Piece Writer" EmptyString
                        "RAG with Documents" ["a.txt"] w1)
      = Raise (ValueError "No documents available for RAG mode").
Proof.
  exists (snd (load_documents Trouble.no_embedder DOCS_PATH (Some ["a.txt"])
                 (after_probe Trouble.no_embedder Demo.fresh))).
  apply (failed_indexing_is_not_retried Trouble.no_embedder "A scene" "One Piece Writer"
           EmptyString "RAG with Documents" ["a.txt"] Demo.fresh
           (snd (load_documents Trouble.no_embedder DOCS_PATH (Some ["a.txt"])
                   (after_probe Trouble.no_embedder Demo.fresh)))
           (snd (load_documents Trouble.no_embedder DOCS_PATH (Some ["a.txt"])
                   (after_probe Trouble.no_embedder Demo.fresh)))
           [Demo.a_doc]).
  - reflexivity.
  - vm_compute. discriminate.
  - discriminate.
  - reflexivity.
  - exact demo_paths_distinct.
  - vm_compute. reflexivity.
  - discriminate.
  - vm_compute. reflexivity.
Defined.

(** ** The loader, file by file *)

(** X24.  A file whose stored fingerprint differs from its current hash
    is loaded again: when the loader returns, the documents its format
    loader produced stand in the result and the store holds the current
    hash in place of the stale one.  The file is taken to be processed
    (supported, selected, regular) and alone with its relative path. *)
Theorem changed_file_is_reloaded (env : Env) (path : string)
    (selected_files : option (list string)) (old : gmap string string)
    (pre post : list (string * list string)) (before after : list string)
    (root file file_hash stale : string) (w w' : World) (docs : list Document) :
  os_walk env path = pre ++ (root, before ++ file :: after) :: post ->
  ~ In (rel_path_of env path root file)
       (rel_paths env path (pre ++ (root, before ++ after) :: post)) ->
  processed env path selected_files root file ->
  load_hash_db w = (Ok old, w) ->
  hash_file env (Py.os_path_join path (rel_path_of env path root file)) = Ok file_hash ->
  old !! rel_path_of env path root file = Some stale ->
  stale <> file_hash ->
  load_documents env path selected_files w = (Ok docs, w') ->
  exists (new_docs : list Document) (merged : gmap string string),
    load_file env file (Py.os_path_join path (rel_path_of env path root file))
      = Ok new_docs /\
    (exists earlier later, docs = earlier ++ new_docs ++ later) /\
    hash_index_json w' = HashFileJson merged /\
    merged !! rel_path_of env path root file = Some file_hash.
Proof.
  intros Hwalk Hfresh (Hext & Hsel & Hisfile) Hload Hhash Hold Hstale Hrun.
  unfold load_documents in Hrun. rewrite Hwalk in Hrun.
  apply load_documents_over_inv in Hrun as (old' & hashes & Hload' & Hvisit & Hupd).
  rewrite Hload in Hload'. injection Hload' as <-.
  apply update_hash_db_inv_world in Hupd as (old' & Hload' & _ & ->).
  rewrite Hload in Hload'. injection Hload' as <-.
  rewrite visit_walk_app in Hvisit.
  apply and_then_inv in Hvisit as (st1 & _ & Hvisit). simpl in Hvisit.
  apply and_then_inv in Hvisit as (st2 & Hfiles & Hpost).
  rewrite visit_files_app in Hfiles.
  apply and_then_inv in Hfiles as (st3 & _ & Hfiles). simpl in Hfiles.
  apply and_then_inv in Hfiles as (st4 & Hfile1 & Hafter).
  unfold visit_file in Hfile1.
  rewrite Hext, Hsel, Hisfile, Hhash in Hfile1. simpl in Hfile1.
  rewrite bool_decide_eq_false_2 in Hfile1 by (rewrite Hold; congruence).
  apply and_then_inv in Hfile1 as (new_docs & Hnew & [= <-]).
  apply visit_files_effect in Hafter as [[d1 Hd1] Hk1].
  apply visit_walk_effect in Hpost as [[d2 Hd2] Hk2].
  simpl in *.
  assert (Hlater : ~ In (rel_path_of env path root file)
                        (map (rel_path_of env path root) after) /\
                   ~ In (rel_path_of env path root file) (rel_paths env path post)).
  { unfold rel_paths in *. rewrite flat_map_app in Hfresh. simpl in Hfresh.
    rewrite !in_app_iff, map_app, in_app_iff in Hfresh. tauto. }
  destruct Hlater as [Hafter Hpost].
  exists new_docs, (hashes ∪ old).
  split; [exact Hnew |]. split.
  - exists (fst st3), (d1 ++ d2). rewrite Hd2, Hd1. now rewrite <- !app_assoc.
  - split; [reflexivity |]. apply lookup_union_Some_l.
    rewrite (Hk2 _ Hpost), (Hk1 _ Hafter). apply lookup_insert_eq.
Qed.

Lemma changed_file_is_reloaded_witness :
  exists (new_docs : list Document) (merged : gmap string string),
    load_file Demo.env "a.txt" "./docs/a.txt" = Ok new_docs /\
    (exists earlier later,
       fst (load_documents Demo.env "./docs" (Some ["a.txt"])
              {| hash_index_json := HashFileJson {[ "a.txt" := "stale" ]};
                 faiss_index := IndexMissing;
                 written_files := ∅;
                 stories := [];
                 trace := [] |})
         = Ok (earlier ++ new_docs ++ later)) /\
    merged !! "a.txt" = Some "md5 of bytes of ./docs/a.txt".
Proof.
  destruct (changed_file_is_reloaded Demo.env "./docs" (Some ["a.txt"])
              {[ "a.txt" := "stale" ]} [] [] [] ["notes.md"; "b.txt"]
              "./docs" "a.txt" "md5 of bytes of ./docs/a.txt" "stale"
              {| hash_index_json := HashFileJson {[ "a.txt" := "stale" ]};
                 faiss_index := IndexMissing;
                 written_files := ∅;
                 stories := [];
                 trace := [] |}
              (snd (load_documents Demo.env "./docs" (Some ["a.txt"])
                      {| hash_index_json := HashFileJson {[ "a.txt" := "stale" ]};
                         faiss_index := IndexMissing;
                         written_files := ∅;
                         stories := [];
                         trace := [] |}))
              [Demo.a_doc])
    as (new_docs & merged & Hnew & (earlier & later & Hdocs) & _ & Hkey).
  - reflexivity.
  - vm_compute. intros [H | [H | []]]; discriminate H.
  - repeat split.
  - reflexivity.
  - reflexivity.
  - reflexivity.
  - discriminate.
  - vm_compute. reflexivity.
  - exists new_docs, merged. split; [exact Hnew |]. split; [| exact Hkey].
    exists earlier, later. rewrite <- Hdocs. vm_compute. reflexivity.
Defined.

(** X25.  A listed entry that is not processed (its name has none of the
    three suffixes, or the selection leaves it out, or it is no regular
    file) is never opened: the loader does what it does on the walk
    without it, even when the entry could not have been read. *)
Theorem unprocessed_entry_is_never_read (env : Env) (path : string)
    (selected_files : option (list string)) (root file : string)
    (pre post : list (string * list string)) (before after : list string)
    (w : World) :
  Py.endswith_any file SUPPORTED_SUFFIXES = false \/
  deselected selected_files (rel_path_of env path root file) = true \/
  os_path_isfile env (Py.os_path_join path (rel_path_of env path root file)) = false ->
  load_documents_over (pre ++ (root, before ++ file :: after) :: post)
                      env path selected_files w
    = load_documents_over (pre ++ (root, before ++ after) :: post)
                          env path selected_files w.
Proof.
  intros Hout.
  assert (Hskip : forall hash_db st,
            visit_file env path selected_files hash_db root file st = Ok st).
  { intros hash_db st. unfold visit_file.
    destruct (Py.endswith_any file SUPPORTED_SUFFIXES); [| reflexivity].
    destruct (deselected selected_files _); [reflexivity |].
    destruct (os_path_isfile env _); [| reflexivity].
    destruct Hout as [H | [H | H]]; discriminate H. }
  unfold load_documents_over, bind.
  destruct (load_hash_db w) as [[hash_db | e] w1]; [| reflexivity].
  now rewrite (visit_walk_drop _ _ _ _ _ _ _ _ _ _ _ (Hskip hash_db)).
Qed.

Lemma unprocessed_entry_is_never_read_witness :
  Py.endswith_any "notes.md" SUPPORTED_SUFFIXES = false /\
  load_documents Demo.env "./docs" None Demo.fresh
    = load_documents_over [("./docs", ["a.txt"; "b.txt"])]
                          Demo.env "./docs" None Demo.fresh.
Proof.
  split; [reflexivity |].
  apply (unprocessed_entry_is_never_read Demo.env "./docs" None "./docs" "notes.md"
           [] [] ["a.txt"] ["b.txt"] Demo.fresh).
  left. reflexivity.
Defined.

(** X26.  Over a directory that lists no file (it is missing, or it and
    the directories below it are empty) the loader returns no document and
    still writes the fingerprint file, with the mapping it held: a missing
    file is created holding the empty mapping. *)
Theorem empty_directory_creates_store (env : Env) (path : string)
    (selected_files : option (list string)) (old : gmap string string) (w : World) :
  (forall root files, In (root, files) (os_walk env path) -> files = []) ->
  load_hash_db w = (Ok old, w) ->
  open_w env HASH_DB_PATH = Ok tt ->
  load_documents env path selected_files w
    = (Ok [],
       {| hash_index_json := HashFileJson old;
          faiss_index := faiss_index w;
          written_files := written_files w;
          stories := stories w;
          trace := trace w ++ [DiskWrite HASH_DB_PATH] |}) /\
  (hash_index_json w = HashFileMissing -> old = ∅).
Proof.
  intros Hwalk Hload Hopen. split.
  - unfold load_documents.
    apply settled_run; [| exact Hload | exact Hopen].
    intros root files file Hdir Hfile.
    rewrite (Hwalk _ _ Hdir) in Hfile. destruct Hfile.
  - intros Hmissing. unfold load_hash_db in Hload. rewrite Hmissing in Hload.
    now injection Hload.
Qed.

Lemma empty_directory_creates_store_witness :
  os_walk (Demo.make [("./docs", []); ("./docs/memory_stories", [])] Demo.serving)
          "./docs"
    = [("./docs", []); ("./docs/memory_stories", [])] /\
  load_documents
    (Demo.make [("./docs", []); ("./docs/memory_stories", [])] Demo.serving)
    "./docs" None Demo.indexed
    = (Ok [],
       {| hash_index_json :=
            HashFileJson {[ "a.txt" := "md5 of bytes of ./docs/a.txt" ]};
          faiss_index := IndexSaved [Demo.a_doc];
          written_files := ∅;
          stories := [];
          trace := [DiskWrite HASH_DB_PATH] |}) /\
  load_documents (Demo.make [] Demo.serving) "./docs" None Demo.fresh
    = (Ok [],
       {| hash_index_json := HashFileJson ∅;
          faiss_index := IndexMissing;
          written_files := ∅;
          stories := [];
          trace := [DiskWrite HASH_DB_PATH] |}).
Proof.
  split; [reflexivity |]. split.
  - apply (empty_directory_creates_store
             (Demo.make [("./docs", []); ("./docs/memory_stories", [])] Demo.serving)
             "./docs" None {[ "a.txt" := "md5 of bytes of ./docs/a.txt" ]}
             Demo.indexed); [| reflexivity | reflexivity].
    intros root files [[= _ <-] | [[= _ <-] | []]]; reflexivity.
  - apply (empty_directory_creates_store (Demo.make [] Demo.serving) "./docs" None ∅
             Demo.fresh); [| reflexivity | reflexivity].
    intros root files [].
Defined.
